(** * susuwatari_bot: the Met-artwork Telegram bot ([src/main.py])

    A shallow embedding of [main.py] and the properties of its
    fetch / select / format / dispatch pipeline.

    - JSON payloads are the values [json.loads] builds: [None], [bool],
      [int], [float], [str], [list] and [dict] (a [dict] keeps insertion
      order, so it is an association list with distinct keys).
    - Python [str] is modelled as a string of UTF-8 bytes.  Every character
      [html.escape] looks at is ASCII, so escaping is the same on bytes;
      where the code indexes a string, [characters] gives its characters.
    - The coroutines run in a small state-and-exception monad [M]: the
      state is the trace of calls made to the outside world (HTTP, the
      Telegram API, the logger, the clock), the outside world answers
      through an oracle [env] that sees the trace so far. *)

From Stdlib Require Import String Ascii List ZArith Bool Lia Floats.
From Stdlib Require Import DecimalString Permutation.
Import ListNotations.
Local Open Scope list_scope.
Local Open Scope string_scope.

(* ================================================================== *)
(** * Python values *)
(* ================================================================== *)

Module Py.

(** The values [response.json()] can return. *)
#[warnings="-register-all"]
Inductive json : Type :=
| JNull
| JBool (b : bool)
| JInt (z : Z)
| JFloat (f : float)
| JStr (s : string)
| JList (l : list json)
| JObj (o : list (string * json)).

(** A [dict] with [str] keys, in insertion order. *)
Definition dict : Type := list (string * json).

(** [bool(v)]: the truth value Python's [if v], [not v] and [or] test. *)
Definition truthy (v : json) : bool :=
  match v with
  | JNull => false
  | JBool b => b
  | JInt z => negb (z =? 0)%Z
  | JFloat f => negb (PrimFloat.eqb f 0%float)
  | JStr s => negb (String.eqb s "")
  | JList l => match l with [] => false | _ :: _ => true end
  | JObj o => match o with [] => false | _ :: _ => true end
  end.

(** [d.get(key)]: the value stored under [key], [None] when there is none. *)
Fixpoint dict_get (d : dict) (key : string) : json :=
  match d with
  | [] => JNull
  | (k, v) :: rest => if String.eqb k key then v else dict_get rest key
  end.

(** [key in d]. *)
Definition dict_has (d : dict) (key : string) : bool :=
  existsb (fun kv => String.eqb (fst kv) key) d.

(** [del d[key]] (all bindings of [key]; a [dict] has at most one). *)
Definition dict_remove (d : dict) (key : string) : dict :=
  filter (fun kv => negb (String.eqb (fst kv) key)) d.


(** A continuation byte of UTF-8, [10xxxxxx]. *)
Definition is_continuation (c : ascii) : bool :=
  match c with
  | Ascii _ _ _ _ _ _ false true => true
  | _ => false
  end.

Definition starts_with_continuation (s : string) : bool :=
  match s with
  | String c _ => is_continuation c
  | EmptyString => false
  end.

(** The characters of a [str]: every leading byte with the continuation
    bytes that follow it.  [len(s)] is their number and [s[k]] the [k]-th
    of them. *)
Fixpoint characters (s : string) : list string :=
  match s with
  | EmptyString => []
  | String c rest =>
      match characters rest with
      | chunk :: chunks =>
          if starts_with_continuation rest then String c chunk :: chunks
          else String c EmptyString :: chunk :: chunks
      | [] => [String c EmptyString]
      end
  end.

(** The double quote character. *)
Definition dquote : ascii := "034"%char.

(** ["\n"]. *)
Definition nl : string := String (ascii_of_nat 10) EmptyString.

(** [sep.join(parts)]. *)
Definition join (sep : string) (parts : list string) : string :=
  String.concat sep parts.

(** [str(n)] for an [int]. *)
Definition str_of_int (z : Z) : string :=
  NilZero.string_of_int (Z.to_int z).

(** [repr] of a [str] and of a [float] depend on the Unicode tables and on
    the shortest-round-trip printer of the interpreter; they are taken as
    given. *)
Class PyRepr : Type := {
  repr_str : string -> string;
  repr_float : float -> string
}.

Section Repr.
Context {R : PyRepr}.

(** [repr(v)]. *)
Fixpoint repr (v : json) : string :=
  match v with
  | JNull => "None"
  | JBool true => "True"
  | JBool false => "False"
  | JInt z => str_of_int z
  | JFloat f => repr_float f
  | JStr s => repr_str s
  | JList l => "[" ++ join ", " (map repr l) ++ "]"
  | JObj o =>
      "{" ++ join ", " (map (fun kv => repr_str (fst kv) ++ ": " ++ repr (snd kv)) o)
          ++ "}"
  end.

(** [str(v)], also what an f-string field [{v}] interpolates: a [str] is
    itself, every other value prints as its [repr]. *)
Definition str (v : json) : string :=
  match v with
  | JStr s => s
  | _ => repr v
  end.

End Repr.

(** ** Exceptions *)

(** The exception classes that can reach this program. *)
Inductive exn_class : Type :=
| BaseException
| Exception
| CancelledError          (* asyncio; a BaseException, not an Exception *)
| ClientError             (* aiohttp *)
| ClientConnectionError   (* aiohttp: DNS, connect, TLS failures *)
| ClientResponseError     (* aiohttp: raised by raise_for_status *)
| ContentTypeError        (* aiohttp: raised by response.json() *)
| TimeoutError            (* asyncio *)
| ValueError
| JSONDecodeError         (* json: raised by response.json() *)
| AttributeError
| TypeError
| LookupError
| KeyError
| IndexError
| OSError                 (* FileNotFoundError, ssl.SSLError *)
| TelegramError.          (* telegram.error *)

(** The direct base class. *)
Definition base (c : exn_class) : option exn_class :=
  match c with
  | BaseException => None
  | Exception => Some BaseException
  | CancelledError => Some BaseException
  | ClientError => Some Exception
  | ClientConnectionError => Some ClientError
  | ClientResponseError => Some ClientError
  | ContentTypeError => Some ClientResponseError
  | TimeoutError => Some Exception
  | ValueError => Some Exception
  | JSONDecodeError => Some ValueError
  | AttributeError => Some Exception
  | TypeError => Some Exception
  | LookupError => Some Exception
  | KeyError => Some LookupError
  | IndexError => Some LookupError
  | OSError => Some Exception
  | TelegramError => Some Exception
  end.

Definition exn_class_eqb (c d : exn_class) : bool :=
  match c, d with
  | BaseException, BaseException | Exception, Exception
  | CancelledError, CancelledError | ClientError, ClientError
  | ClientConnectionError, ClientConnectionError
  | ClientResponseError, ClientResponseError
  | ContentTypeError, ContentTypeError | TimeoutError, TimeoutError
  | ValueError, ValueError | JSONDecodeError, JSONDecodeError
  | AttributeError, AttributeError | TypeError, TypeError
  | LookupError, LookupError | KeyError, KeyError
  | IndexError, IndexError | OSError, OSError
  | TelegramError, TelegramError => true
  | _, _ => false
  end.

(** [issubclass(c, d)]; the hierarchy above is four levels deep. *)
Fixpoint issubclass_fuel (fuel : nat) (c d : exn_class) : bool :=
  exn_class_eqb c d ||
  match fuel with
  | O => false
  | S fuel' =>
      match base c with
      | Some b => issubclass_fuel fuel' b d
      | None => false
      end
  end.

Definition issubclass (c d : exn_class) : bool := issubclass_fuel 4 c d.

(** A raised exception: its class and the text [str(e)] gives. *)
Record exn : Type := mkExn { exn_cls : exn_class; exn_text : string }.

(** [isinstance(e, c)]. *)
Definition isinstance (e : exn) (c : exn_class) : bool :=
  issubclass (exn_cls e) c.

(** The outcome of evaluating an expression or running a coroutine. *)
Inductive result (A : Type) : Type :=
| Returns (a : A)
| Raises (e : exn).
Arguments Returns {A} a.
Arguments Raises {A} e.

End Py.
Export Py.

(* ================================================================== *)
(** * html.escape *)
(* ================================================================== *)

Module Html.

(** [s.replace(c, r)] for a one-character pattern [c]. *)
Fixpoint replace (c : ascii) (r : string) (s : string) : string :=
  match s with
  | EmptyString => EmptyString
  | String a rest =>
      if Ascii.eqb a c then r ++ replace c r rest
      else String a (replace c r rest)
  end.

(** [html.escape(s)] with its default [quote=True]: the ampersand first,
    then the angle brackets, then both quotes. *)
Definition escape (s : string) : string :=
  let s := replace "&"%char "&amp;" s in
  let s := replace "<"%char "&lt;" s in
  let s := replace ">"%char "&gt;" s in
  let s := replace dquote "&quot;" s in
  let s := replace "'"%char "&#x27;" s in
  s.

End Html.
Export Html.

(* ================================================================== *)
(** * Presentation formatter *)
(* ================================================================== *)

Section Formatter.
Context {R : PyRepr}.

(** The [fields] dict literal of [format_art_info]: seven labels, in the
    order they are written, each bound to [object_data.get(<key>)]. *)
Definition fields (object_data : dict) : dict :=
  [ ("Title",   dict_get object_data "title");
    ("Artist",  dict_get object_data "artistDisplayName");
    ("Date",    dict_get object_data "objectDate");
    ("Culture", dict_get object_data "culture");
    ("Period",  dict_get object_data "period");
    ("Medium",  dict_get object_data "medium");
    ("Country", dict_get object_data "country") ].

(** [f"<b>{key}</b>: {escape(str(value))}"]. *)
Definition info_line (key : string) (value : json) : string :=
  "<b>" ++ key ++ "</b>: " ++ escape (str value).

(** The list comprehension over [fields.items()] with its [if value]
    filter. *)
Definition info_lines (object_data : dict) : list string :=
  map (fun kv => info_line (fst kv) (snd kv))
      (filter (fun kv => truthy (snd kv)) (fields object_data)).

(** [f'\n<a href="{object_url}">View on Met website</a>']. *)
Definition url_line (object_url : json) : string :=
  nl ++ "<a href=" ++ String dquote (str object_url)
     ++ String dquote ">View on Met website</a>".

(** [format_art_info(object_data)]. *)
Definition format_art_info (object_data : dict) : string :=
  let info_lines := info_lines object_data in
  let object_url := dict_get object_data "objectURL" in
  let info_lines :=
    if truthy object_url then (info_lines ++ [url_line object_url])%list
    else info_lines in
  join nl info_lines.

(** [v[0]]: the first element of a list, the first character of a string;
    a [dict] with [str] keys has no key [0], and numbers and booleans are
    not subscriptable. *)
Definition subscript0 (v : json) : result json :=
  match v with
  | JList (x :: _) => Returns x
  | JList [] => Raises (mkExn IndexError "list index out of range")
  | JStr s =>
      match characters s with
      | c :: _ => Returns (JStr c)
      | [] => Raises (mkExn IndexError "string index out of range")
      end
  | JObj _ => Raises (mkExn KeyError "0")
  | JNull => Raises (mkExn TypeError "'NoneType' object is not subscriptable")
  | JBool _ => Raises (mkExn TypeError "'bool' object is not subscriptable")
  | JInt _ => Raises (mkExn TypeError "'int' object is not subscriptable")
  | JFloat _ => Raises (mkExn TypeError "'float' object is not subscriptable")
  end.

(** [a or b]. *)
Definition py_or (a b : json) : json := if truthy a then a else b.

(** [get_best_image_url(object_data)]; [or] evaluates its right operand
    only when the left one is falsy, so the subscript is reached only when
    both primary fields are. *)
Definition get_best_image_url (object_data : dict) : result json :=
  let small := dict_get object_data "primaryImageSmall" in
  if truthy small then Returns small else
  let primary := dict_get object_data "primaryImage" in
  if truthy primary then Returns primary else
  subscript0 (py_or (dict_get object_data "additionalImages") (JList [JNull])).

End Formatter.

(* ================================================================== *)
(** * The outside world and the coroutine monad *)
(* ================================================================== *)

Module World.

Inductive log_level : Type := INFO | ERROR.

(** [telegram.constants.ParseMode]; the bot only uses [HTML]. *)
Inductive parse_mode : Type := HTML.

Definition query : Type := list (string * string).

(** What the code looks at in an [aiohttp.ClientResponse]: the status
    line, and what awaiting [response.json()] does.  [status_error] is the
    text of the [ClientResponseError] that [raise_for_status] builds. *)
Record response : Type := mkResponse {
  status : Z;
  status_error : string;
  json_body : result json
}.

(** How one fetch goes.  Either the TLS context cannot be built:
    [ssl.create_default_context] raises with the given text before any
    request is made.  Or the request is made, and entering
    [async with session.get(...)] raises or yields a response. *)
Inductive http_reply : Type :=
| NoContext (text : string)
| GetRaises (e : exn)
| GetResponse (r : response).

(** The calls the program makes to the outside world. *)
Inductive event : Type :=
| ELog (level : log_level) (msg : string)
| ESessionOpen
| ESessionClose
| EGet (url : string) (params : option query) (headers : query)
| ESendChatAction (chat_id : Z) (action : string)
| EReplyText (text : string) (mode : option parse_mode)
| EReplyPhoto (photo : json) (caption : string) (mode : option parse_mode)
| ESleep (seconds : float).

Definition trace : Type := list event.

(** The outside world: each answer may depend on everything that has
    happened so far.  [telegram] answers [None] when the Bot API call
    succeeds, [randbelow t n] is the draw of the random generator. *)
Record env : Type := mkEnv {
  http : trace -> string -> option query -> http_reply;
  telegram : trace -> event -> option exn;
  randbelow : trace -> nat -> nat
}.

(** A coroutine: run in a world from the trace so far, it returns or
    raises, and extends the trace. *)
Definition M (A : Type) : Type := env -> trace -> result A * trace.

Definition ret {A} (a : A) : M A := fun _ t => (Returns a, t).

Definition bind {A B} (m : M A) (f : A -> M B) : M B :=
  fun E t =>
    match m E t with
    | (Returns a, t') => f a E t'
    | (Raises e, t') => (Raises e, t')
    end.

Definition raise {A} (e : exn) : M A := fun _ t => (Raises e, t).

(** [try: m  except <classes> as e: h e]. *)
Definition try_except {A} (m : M A) (catches : exn -> bool) (h : exn -> M A)
  : M A :=
  fun E t =>
    match m E t with
    | (Returns a, t') => (Returns a, t')
    | (Raises e, t') => if catches e then h e E t' else (Raises e, t')
    end.

(** [try: m  finally: c], the exit of a context manager. *)
Definition finally {A} (m : M A) (c : M unit) : M A :=
  fun E t =>
    match m E t with
    | (r, t') =>
        match c E t' with
        | (Returns _, t'') => (r, t'')
        | (Raises e, t'') => (Raises e, t'')
        end
    end.

(** Lift the outcome of a pure expression. *)
Definition lift {A} (r : result A) : M A := fun _ t => (r, t).

Definition emit (ev : event) : M unit := fun _ t => (Returns tt, (t ++ [ev])%list).

(** A Bot API call: recorded, then it succeeds or raises as the world says. *)
Definition call (ev : event) : M unit :=
  fun E t =>
    (match telegram E t ev with
     | None => Returns tt
     | Some e => Raises e
     end, (t ++ [ev])%list).

End World.
Export World.

Declare Scope coro_scope.
Delimit Scope coro_scope with coro.
Notation "x <- m ;; k" := (bind m (fun x => k))
  (at level 61, m at next level, right associativity) : coro_scope.
Notation "m ;; k" := (bind m (fun _ => k))
  (at level 61, right associativity) : coro_scope.
Local Open Scope coro_scope.

(* ================================================================== *)
(** * HTTP fetcher *)
(* ================================================================== *)

Definition MET_BASE_URL : string :=
  "https://collectionapi.metmuseum.org/public/collection/v1".

Definition HEADERS : query := [("User-Agent", "MetArtTelegramBot/1.0")].

Definition logger_info (msg : string) : M unit := emit (ELog INFO msg).
Definition logger_error (msg : string) : M unit := emit (ELog ERROR msg).

(** [ssl.create_default_context(cafile=certifi.where())]: loading the
    certificate bundle raises an [OSError] ([FileNotFoundError],
    [ssl.SSLError]) when the world has none to offer; no call leaves the
    process. *)
Definition create_default_context (url : string) (params : option query)
  : M unit :=
  fun E t =>
    (match http E t url params with
     | NoContext text => Raises (mkExn OSError text)
     | _ => Returns tt
     end, t).

(** [session.get(url, params=params, headers=HEADERS, ssl=ssl_context)];
    it is given the context, so the first case is not reached from
    [fetch_json]. *)
Definition session_get (url : string) (params : option query) : M response :=
  fun E t =>
    (match http E t url params with
     | NoContext text => Raises (mkExn OSError text)
     | GetRaises e => Raises e
     | GetResponse r => Returns r
     end, (t ++ [EGet url params HEADERS])%list).

(** [response.raise_for_status()]: aiohttp raises [ClientResponseError]
    when the status is 400 or higher and does nothing below. *)
Definition raise_for_status (r : response) : M unit :=
  if (400 <=? status r)%Z
  then raise (mkExn ClientResponseError (status_error r))
  else ret tt.

(** The [except (aiohttp.ClientError, asyncio.TimeoutError)] clause. *)
Definition fetch_json_catches (e : exn) : bool :=
  isinstance e ClientError || isinstance e TimeoutError.

(** [fetch_json(session, url, params)]: the TLS context is built before
    the [try], so a failure there is not caught. *)
Definition fetch_json (url : string) (params : option query) : M json :=
  create_default_context url params ;;
  try_except
    (response <- session_get url params ;;
     raise_for_status response ;;
     lift (json_body response))
    fetch_json_catches
    (fun e =>
       logger_error ("API request failed: " ++ exn_text e) ;;
       ret JNull).

(* ================================================================== *)
(** * Artwork selector *)
(* ================================================================== *)

Section Selector.
Context {R : PyRepr}.

(** [async with aiohttp.ClientSession() as session: body]. *)
Definition with_session {A} (body : M A) : M A :=
  emit ESessionOpen ;; finally body (emit ESessionClose).

(** [v.get(key)]: only a [dict] has the method. *)
Definition method_get (v : json) (key : string) : M json :=
  match v with
  | JObj d => ret (dict_get d key)
  | _ => raise (mkExn AttributeError "object has no attribute 'get'")
  end.

(** [v[key]] for a [str] key. *)
Definition getitem (v : json) (key : string) : M json :=
  match v with
  | JObj d =>
      if dict_has d key then ret (dict_get d key)
      else raise (mkExn KeyError (repr_str key))
  | JList _ => raise (mkExn TypeError "list indices must be integers or slices, not str")
  | JStr _ => raise (mkExn TypeError "string indices must be integers, not 'str'")
  | _ => raise (mkExn TypeError "object is not subscriptable")
  end.

(** The draw [self._randbelow(n)], below [n]. *)
Definition draw (n : nat) : M nat :=
  fun E t => (Returns (randbelow E t n mod n), t).

(** [random.choice(seq)], that is [seq[randbelow(len(seq))]]. *)
Definition random_choice (seq : json) : M json :=
  match seq with
  | JList [] => raise (mkExn IndexError "Cannot choose from an empty sequence")
  | JList l => k <- draw (length l) ;; ret (nth k l JNull)
  | JStr s =>
      match characters s with
      | [] => raise (mkExn IndexError "Cannot choose from an empty sequence")
      | cs => k <- draw (length cs) ;; ret (JStr (nth k cs EmptyString))
      end
  | JObj [] => raise (mkExn IndexError "Cannot choose from an empty sequence")
  | JObj o =>
      k <- draw (length o) ;; raise (mkExn KeyError (str_of_int (Z.of_nat k)))
  | _ => raise (mkExn TypeError "object has no len()")
  end.

Definition search_params : query :=
  [("hasImages", "true"); ("isPublicDomain", "true"); ("q", "*")].

(** [get_random_met_object()]. *)
Definition get_random_met_object : M json :=
  with_session
    (search_data <- fetch_json (MET_BASE_URL ++ "/search") (Some search_params) ;;
     (* not search_data or not search_data.get('objectIDs') *)
     stop <- (if negb (truthy search_data) then ret true
              else ids <- method_get search_data "objectIDs" ;;
                   ret (negb (truthy ids))) ;;
     if (stop : bool) then ret JNull
     else
       ids <- getitem search_data "objectIDs" ;;
       random_id <- random_choice ids ;;
       object_data <- fetch_json (MET_BASE_URL ++ "/objects/" ++ str random_id) None ;;
       ret object_data).

End Selector.

(* ================================================================== *)
(** * Message dispatcher *)
(* ================================================================== *)

(** What the handlers read from a [telegram.Update] carrying a message. *)
Record Update : Type := mkUpdate {
  chat_id : Z;              (* update.effective_chat.id *)
  user_id : Z;              (* update.effective_user.id *)
  user_full_name : string;  (* update.effective_user.full_name *)
  message_text : string     (* update.message.text *)
}.

Definition send_chat_action (chat : Z) (action : string) : M unit :=
  call (ESendChatAction chat action).

Definition reply_text (text : string) (mode : option parse_mode) : M unit :=
  call (EReplyText text mode).

Definition reply_photo (photo : json) (caption : string)
           (mode : option parse_mode) : M unit :=
  call (EReplyPhoto photo caption mode).

Definition sleep (seconds : float) : M unit := emit (ESleep seconds).

Section Dispatcher.
Context {R : PyRepr}.

(** The text sent when the photo cannot be delivered. *)
Definition image_fallback_text (image_url : json) (caption : string) : string :=
  "🖼️ Image available at: " ++ str image_url ++ nl ++ nl ++ caption.

(** The text sent when the record has no image. *)
Definition no_image_text (caption : string) : string :=
  "❌ No image available for this artwork" ++ nl ++ nl ++ caption.

(** [get_met_art_item(update, context)]. *)
Definition get_met_art_item (update : Update) : M unit :=
  logger_info ("Art request from " ++ user_full_name update
               ++ " (" ++ str_of_int (user_id update) ++ ")") ;;
  send_chat_action (chat_id update) "upload_photo" ;;
  met_object <- get_random_met_object ;;
  if negb (truthy met_object) then
    reply_text "🚫 Couldn't fetch artwork. Please try again later." None
  else
    (* both formatter functions start with object_data.get(...) *)
    object_data <- match met_object with
                   | JObj d => ret d
                   | _ => raise (mkExn AttributeError "object has no attribute 'get'")
                   end ;;
    image_url <- lift (get_best_image_url object_data) ;;
    let caption := format_art_info object_data in
    if truthy image_url then
      try_except
        (reply_photo image_url caption (Some HTML))
        (fun e => isinstance e Exception)
        (fun e =>
           logger_error ("Failed to send image: " ++ exn_text e) ;;
           reply_text (image_fallback_text image_url caption) (Some HTML))
    else
      reply_text (no_image_text caption) (Some HTML).

(** [echo(update, context)]. *)
Definition echo (update : Update) : M unit :=
  send_chat_action (chat_id update) "typing" ;;
  sleep 0.5%float ;;
  reply_text (message_text update) None.

End Dispatcher.

(* ================================================================== *)
(** * Vocabulary of the properties *)
(* ================================================================== *)

(** The fixed, ordered field list of the caption: each label with the key
    of the record it displays. *)
Definition FIELD_ORDER : list (string * string) :=
  [ ("Title",   "title");
    ("Artist",  "artistDisplayName");
    ("Date",    "objectDate");
    ("Culture", "culture");
    ("Period",  "period");
    ("Medium",  "medium");
    ("Country", "country") ].


(** The characters that open or close markup in Telegram's HTML dialect. *)
Definition is_markup (c : ascii) : bool :=
  Ascii.eqb c "<"%char || Ascii.eqb c ">"%char
  || Ascii.eqb c dquote || Ascii.eqb c "'"%char.

(** No markup character occurs in [s]. *)
Definition markup_free (s : string) : Prop :=
  forallb (fun c => negb (is_markup c)) (list_ascii_of_string s) = true.


(** [sub] occurs in [s]. *)
Definition contains (s sub : string) : Prop :=
  exists pre post, s = pre ++ sub ++ post.

(** The values Python treats as false. *)
Definition falsy_value (v : json) : Prop :=
  v = JNull \/ v = JBool false \/ v = JInt 0
  \/ (exists f, v = JFloat f /\ PrimFloat.eqb f 0%float = true)
  \/ v = JStr "" \/ v = JList [] \/ v = JObj [].

(** The HTTP requests of a trace, in order. *)
Definition is_request (ev : event) : bool :=
  match ev with EGet _ _ _ => true | _ => false end.

Definition requests (t : trace) : list event := filter is_request t.

(** The photos sent in a trace. *)
Definition is_photo (ev : event) : bool :=
  match ev with EReplyPhoto _ _ _ => true | _ => false end.

Definition SEARCH_URL : string := MET_BASE_URL ++ "/search".

Definition search_request : event :=
  EGet SEARCH_URL (Some search_params) HEADERS.

(** The search answered with nothing, or with no identifiers. *)
Definition no_identifiers (search_data : json) : Prop :=
  truthy search_data = false
  \/ exists d, search_data = JObj d /\ truthy (dict_get d "objectIDs") = false.

(** A status in the 2xx range. *)
Definition is_2xx (st : Z) : bool := (200 <=? st)%Z && (st <? 300)%Z.

(** What the Bot API call [ev] does in world [E] after trace [t]. *)
Definition call_outcome (E : env) (t : trace) (ev : event) : result unit :=
  match telegram E t ev with
  | None => Returns tt
  | Some e => Raises e
  end.

(** A printer for the examples: quotes around the text, as [repr] does for
    plain ASCII words. *)
Definition plain_repr : PyRepr :=
  {| repr_str := fun s => "'" ++ s ++ "'";
     repr_float := fun _ => "0.0" |}.

(** The failures [fetch_json] turns into [None]: the request raised an
    [aiohttp.ClientError] or an [asyncio.TimeoutError], the status was 400
    or higher, or reading the body raised one of the two. *)
Definition uniform_failure (reply : http_reply) : Prop :=
  match reply with
  | NoContext _ => False
  | GetRaises e =>
      isinstance e ClientError = true \/ isinstance e TimeoutError = true
  | GetResponse r =>
      (400 <= status r)%Z
      \/ exists e, json_body r = Raises e
                   /\ (isinstance e ClientError = true
                       \/ isinstance e TimeoutError = true)
  end.

(** The first two calls of the art command: the log line and the
    "uploading photo" indicator. *)
Definition art_log (update : Update) : event :=
  ELog INFO ("Art request from " ++ user_full_name update
             ++ " (" ++ str_of_int (user_id update) ++ ")").

Definition art_action (update : Update) : event :=
  ESendChatAction (chat_id update) "upload_photo".

Definition art_prelude (update : Update) : trace :=
  [ art_log update; art_action update ].

(** The entity [html.escape] writes for one character; every other
    character stands for itself. *)
Definition escape_char (c : ascii) : string :=
  if Ascii.eqb c "&"%char then "&amp;"
  else if Ascii.eqb c "<"%char then "&lt;"
  else if Ascii.eqb c ">"%char then "&gt;"
  else if Ascii.eqb c dquote then "&quot;"
  else if Ascii.eqb c "'"%char then "&#x27;"
  else String c EmptyString.

(** The text obtained by writing [f c] for every character [c] of [s]. *)
Fixpoint subst (f : ascii -> string) (s : string) : string :=
  match s with
  | EmptyString => EmptyString
  | String c rest => f c ++ subst f rest
  end.

(** One of the five characters [html.escape] rewrites. *)
Definition is_special (c : ascii) : bool :=
  Ascii.eqb c "&"%char || is_markup c.

(** No character of [s] is rewritten by [html.escape]. *)
Definition plain_text (s : string) : Prop :=
  forallb (fun c => negb (is_special c)) (list_ascii_of_string s) = true.


(** Opening or closing the HTTP session. *)
Definition is_session (ev : event) : bool :=
  match ev with ESessionOpen | ESessionClose => true | _ => false end.

(** What a fetch leaves in the trace: requests and error log lines. *)
Definition is_fetch_event (ev : event) : bool :=
  match ev with
  | EGet _ _ _ => true
  | ELog ERROR _ => true
  | _ => false
  end.

(** The request for the details of the object [random_id]. *)
Definition detail_request {R : PyRepr} (random_id : json) : event :=
  EGet (MET_BASE_URL ++ "/objects/" ++ str random_id) None HEADERS.

(** The text messages sent in a trace. *)
Definition is_text (ev : event) : bool :=
  match ev with EReplyText _ _ => true | _ => false end.

(** What the art command may still do once the selector has answered:
    nothing, one text, one photo, or a photo followed by the error log
    line and the fallback text. *)
Definition art_answer (tail : trace) : Prop :=
  tail = []
  \/ (exists text mode, tail = [EReplyText text mode])
  \/ (exists photo caption mode, tail = [EReplyPhoto photo caption mode])
  \/ (exists photo caption mode msg text mode',
        tail = [EReplyPhoto photo caption mode; ELog ERROR msg;
                EReplyText text mode']).






(* ================================================================== *)
(** * Example records and worlds *)
(* ================================================================== *)

Definition starry_night : dict :=
  [ ("primaryImageSmall", JStr "http://img/1.jpg");
    ("objectDate", JStr "");
    ("title", JStr "Starry <Night>") ].

(** A record whose public URL carries a quote and a tag. *)
Definition hostile_url : string := String dquote "><b>x</b>".

Definition hostile_record : dict :=
  [ ("title", JStr "<i>"); ("objectURL", JStr hostile_url) ].

(** The API's way of saying "no small image": an empty string. *)
Definition small_image_blank : dict :=
  [ ("primaryImageSmall", JStr ""); ("primaryImage", JStr "http://img/2.jpg") ].

(** A record without any image reference. *)
Definition untitled_sketch : dict := [ ("title", JStr "Sketch") ].

Definition ann_update : Update := mkUpdate 7 9 "Ann" "hello".

Definition ok (body : json) : http_reply :=
  GetResponse (mkResponse 200 "" (Returns body)).

Definition search_hits : json :=
  JObj [ ("total", JInt 2); ("objectIDs", JList [JInt 101; JInt 202]) ].

(** A world where the search finds two objects and every detail lookup
    answers with [record]; the Bot API accepts text and chat actions and
    answers a photo with [photo_error]. *)
Definition museum (record : dict) (photo_error : option exn) : env :=
  {| http := fun _ _ params =>
               match params with
               | Some _ => ok search_hits
               | None => ok (JObj record)
               end;
     telegram := fun _ ev =>
                   match ev with
                   | EReplyPhoto _ _ _ => photo_error
                   | _ => None
                   end;
     randbelow := fun _ _ => 5%nat |}.

(** A world where every request answers [reply]. *)
Definition constant_world (reply : http_reply) : env :=
  {| http := fun _ _ _ => reply;
     telegram := fun _ _ => None;
     randbelow := fun _ _ => 0%nat |}.

(** The Bot API refusing a photo. *)
Definition rejected_photo : exn :=
  mkExn TelegramError "Wrong file identifier/HTTP URL specified".

(** What the art command does in a [museum] world before it answers. *)
Definition museum_visit : trace :=
  (art_prelude ann_update
   ++ [ESessionOpen; search_request;
       EGet (MET_BASE_URL ++ "/objects/202") None HEADERS;
       ESessionClose])%list.

Definition timed_out : http_reply := GetRaises (mkExn TimeoutError "").

(** A 200 response whose body is not JSON. *)
Definition malformed_body : http_reply :=
  GetResponse (mkResponse 200 ""
    (Raises (mkExn JSONDecodeError "Expecting value: line 1 column 1 (char 0)"))).

(** A 300 response (aiohttp does not follow it) with a JSON body. *)
Definition multiple_choices : http_reply :=
  GetResponse (mkResponse 300 "" (Returns (JObj [("total", JInt 0)]))).

(** A 404 for the object: the status and a non-JSON error page. *)
Definition not_found : http_reply :=
  GetResponse (mkResponse 404 "404, message='Not Found'"
    (Raises (mkExn ContentTypeError "unexpected mimetype: text/html"))).

(** A world where the search finds two objects and the object lookup
    answers 404. *)
Definition missing_object : env :=
  {| http := fun _ _ params =>
               match params with
               | Some _ => ok search_hits
               | None => not_found
               end;
     telegram := fun _ _ => None;
     randbelow := fun _ _ => 0%nat |}.

(** The certificate bundle is missing: no TLS context can be built. *)
Definition no_certificates : http_reply :=
  NoContext "[Errno 2] No such file or directory".

Definition empty_search : http_reply :=
  ok (JObj [ ("total", JInt 0); ("objectIDs", JNull) ]).

(** A world like [museum] where the object lookup answers [detail]. *)
Definition gallery (detail : http_reply) (photo_error : option exn) : env :=
  {| http := fun _ _ params =>
               match params with
               | Some _ => ok search_hits
               | None => detail
               end;
     telegram := fun _ ev =>
                   match ev with
                   | EReplyPhoto _ _ _ => photo_error
                   | _ => None
                   end;
     randbelow := fun _ _ => 5%nat |}.

(** A world where the Bot API refuses every call. *)
Definition telegram_down : env :=
  {| http := fun _ _ _ => timed_out;
     telegram := fun _ _ => Some (mkExn TelegramError "Timed out");
     randbelow := fun _ _ => 0%nat |}.

(** The handler's task being cancelled while it awaits the Bot API. *)
Definition cancelled : exn := mkExn CancelledError "".

(** A record whose additional images are an object, not a list. *)
Definition odd_images : dict :=
  [ ("title", JStr "Sketch");
    ("additionalImages", JObj [("main", JStr "http://img/3.jpg")]) ].

(** A record with a public URL and nothing else. *)
Definition link_only : dict :=
  [ ("objectURL", JStr "https://www.metmuseum.org/art/collection/search/202") ].

(** The trace of a [gallery] visit up to the closing of the session. *)
Definition search_done : trace :=
  (art_prelude ann_update ++ [ESessionOpen; search_request])%list.




(** A record with one value of every falsy kind and two truthy ones. *)
Definition mixed_values : dict :=
  [ ("title", JStr "Untitled");
    ("artistDisplayName", JStr "");
    ("objectDate", JInt 0);
    ("culture", JList []);
    ("period", JBool false);
    ("medium", JInt 42);
    ("country", JNull) ].

(** A record whose three image fields are present and empty. *)
Definition blank_images : dict :=
  [ ("primaryImageSmall", JStr ""); ("primaryImage", JStr "");
    ("additionalImages", JList []) ].

(** A record whose only image is an additional one. *)
Definition additional_only : dict :=
  [ ("primaryImageSmall", JStr ""); ("primaryImage", JStr "");
    ("additionalImages", JList [JStr "http://img/3.jpg"; JStr "http://img/4.jpg"]) ].

(* ================================================================== *)
(** * Properties of the formatter *)
(* ================================================================== *)

(** ** Dictionaries *)

Lemma dict_get_absent (d : dict) (key : string) :
  dict_has d key = false -> dict_get d key = JNull.
Proof.
  unfold dict_has.
  induction d as [| [k v] rest IH]; simpl; intros H.
  - reflexivity.
  - apply orb_false_iff in H. destruct H as [Hk Hrest].
    rewrite Hk. apply IH, Hrest.
Qed.

Lemma truthy_present (d : dict) (key : string) :
  truthy (dict_get d key) = true -> dict_has d key = true.
Proof.
  intros H. destruct (dict_has d key) eqn:Hhas; [reflexivity|].
  rewrite (dict_get_absent _ _ Hhas) in H. discriminate.
Qed.



Lemma dict_get_remove_other (d : dict) (key k : string) :
  k <> key -> dict_get (dict_remove d key) k = dict_get d k.
Proof.
  intros Hne. unfold dict_remove.
  induction d as [| [k0 v0] rest IH]; simpl.
  - reflexivity.
  - destruct (String.eqb_spec k0 key) as [->|H0]; simpl.
    + rewrite IH. destruct (String.eqb_spec key k); [congruence | reflexivity].
    + rewrite IH. reflexivity.
Qed.

Lemma dict_get_remove_same (d : dict) (key : string) :
  dict_get (dict_remove d key) key = JNull.
Proof.
  unfold dict_remove.
  induction d as [| [k0 v0] rest IH]; simpl.
  - reflexivity.
  - destruct (String.eqb_spec k0 key) as [->|H0]; simpl.
    + exact IH.
    + destruct (String.eqb_spec k0 key); [contradiction | exact IH].
Qed.

(** Removing a binding whose value is falsy changes no truth value and no
    truthy value. *)
Lemma truthy_get_remove (d : dict) (key k : string) :
  truthy (dict_get d key) = false ->
  truthy (dict_get (dict_remove d key) k) = truthy (dict_get d k)
  /\ (truthy (dict_get d k) = true ->
      dict_get (dict_remove d key) k = dict_get d k).
Proof.
  intros Hf. destruct (String.eqb_spec k key) as [->|Hne].
  - rewrite dict_get_remove_same, Hf. split; [reflexivity | discriminate].
  - rewrite dict_get_remove_other by assumption. split; reflexivity.
Qed.

(** ** Characters *)


(** ** Truth values *)

Lemma truthy_false_iff (v : json) : truthy v = false <-> falsy_value v.
Proof.
  unfold falsy_value. split.
  - destruct v as [| b | z | f | s | l | o]; simpl; intros H.
    + now left.
    + subst. right; now left.
    + apply negb_false_iff, Z.eqb_eq in H. subst. right; right; now left.
    + apply negb_false_iff in H. right; right; right; left. now exists f.
    + apply negb_false_iff, String.eqb_eq in H. subst.
      right; right; right; right; now left.
    + destruct l; [|discriminate]. right; right; right; right; right; now left.
    + destruct o; [|discriminate]. right; right; right; right; right; now right.
  - intros [->|[->|[->|[[f [-> Hf]]|[->|[->| ->]]]]]]; simpl; try reflexivity.
    now rewrite Hf.
Qed.

(** ** Escaping *)






(** ** The lines of a text *)







(** ** The caption and the image *)

Section FormatterFacts.
Context {R : PyRepr}.

(** The comprehension visits the fixed field list in order and keeps the
    fields whose value is truthy. *)
Lemma info_lines_by_truthiness (d : dict) :
  info_lines d =
  flat_map (fun f => if truthy (dict_get d (snd f))
                     then [info_line (fst f) (dict_get d (snd f))]
                     else [])
           FIELD_ORDER.
Proof.
  unfold info_lines, fields, FIELD_ORDER. cbn [filter flat_map fst snd map app].
  repeat match goal with
         | |- context [truthy ?v] => destruct (truthy v)
         end; reflexivity.
Qed.



(** C2. The code at the record [hostile_record]: the title is escaped,
    but the object URL is interpolated into the [href] as it came, quote
    and angle brackets included, where its escaped form would have been
    harmless. *)
Theorem format_art_info_object_url_unescaped :
  format_art_info hostile_record =
    "<b>Title</b>: &lt;i&gt;" ++ nl ++ nl
    ++ "<a href=" ++ String dquote hostile_url
    ++ String dquote ">View on Met website</a>"
  /\ escape hostile_url = "&quot;&gt;&lt;b&gt;x&lt;/b&gt;"
  /\ ~ markup_free hostile_url.
Proof.
  split; [reflexivity|]. split; [reflexivity|].
  unfold markup_free. vm_compute. discriminate.
Qed.




(** Removing a key bound to a falsy value changes neither the caption nor
    the image. *)
Lemma falsy_value_is_like_absent (d : dict) (key : string) :
  truthy (dict_get d key) = false ->
  falsy_value (dict_get d key)
  /\ format_art_info (dict_remove d key) = format_art_info d
  /\ get_best_image_url (dict_remove d key) = get_best_image_url d
  /\ info_lines d =
       flat_map (fun f => if truthy (dict_get d (snd f))
                          then ["<b>" ++ fst f ++ "</b>: "
                                ++ escape (str (dict_get d (snd f)))]
                          else [])
                FIELD_ORDER.
Proof.
  intros Hf.
  assert (Ht : forall k, truthy (dict_get (dict_remove d key) k) = truthy (dict_get d k))
    by (intros k; apply (truthy_get_remove d key k Hf)).
  assert (Hv : forall k, truthy (dict_get d k) = true ->
                         dict_get (dict_remove d key) k = dict_get d k)
    by (intros k; apply (truthy_get_remove d key k Hf)).
  split; [now apply truthy_false_iff|]. split; [|split].
  - unfold format_art_info. rewrite Ht.
    assert (Hl : info_lines (dict_remove d key) = info_lines d).
    { rewrite !info_lines_by_truthiness. apply flat_map_ext. intros f.
      rewrite Ht. destruct (truthy (dict_get d (snd f))) eqn:Hk; [|reflexivity].
      rewrite (Hv _ Hk). reflexivity. }
    rewrite Hl. destruct (truthy (dict_get d "objectURL")) eqn:Hu; [|reflexivity].
    rewrite (Hv _ Hu). reflexivity.
  - unfold get_best_image_url, py_or. rewrite !Ht.
    destruct (truthy (dict_get d "primaryImageSmall")) eqn:H1;
      [rewrite (Hv _ H1); reflexivity|].
    destruct (truthy (dict_get d "primaryImage")) eqn:H2;
      [rewrite (Hv _ H2); reflexivity|].
    destruct (truthy (dict_get d "additionalImages")) eqn:H3;
      [rewrite (Hv _ H3); reflexivity | reflexivity].
  - apply info_lines_by_truthiness.
Qed.

End FormatterFacts.

(** ** The lines of the caption *)

Section CaptionLines.
Context {R : PyRepr}.





End CaptionLines.



(** ** Truthiness *)

Section Truthiness.
Context {R : PyRepr}.

(** A line of the caption tells its field: it starts with the bold label
    of one field of the list only. *)
Lemma info_line_label (f g : string * string) (v : json) :
  In f FIELD_ORDER -> In g FIELD_ORDER ->
  prefix ("<b>" ++ fst f ++ "</b>") (info_line (fst g) v) = true -> f = g.
Proof.
  intros Hf Hg. unfold info_line.
  repeat (destruct Hf as [<- | Hf]; [| try contradiction]);
    repeat (destruct Hg as [<- | Hg]; [| try contradiction]);
    cbn; intros H; try reflexivity; discriminate H.
Qed.

(** C10. Presence is decided by truthiness.  The falsy values are null,
    [False], zero and the empty string, list and dict.  In the caption a
    field with a falsy value has no line and every field with a truthy
    value has its line, the value turned into text by [str] and then
    escaped.  In the image selection a falsy small image falls through to
    the primary image, a falsy primary image to the first additional
    image, and an absent or empty list of additional images to [None].
    For both functions a key bound to a falsy value is like an absent
    key. *)
Theorem falsy_field_is_dropped_and_skipped (d : dict) :
  let small := dict_get d "primaryImageSmall" in
  let primary := dict_get d "primaryImage" in
  let additional := dict_get d "additionalImages" in
  (forall v, truthy v = false <-> falsy_value v)
  /\ info_lines d =
       flat_map (fun f => if truthy (dict_get d (snd f))
                          then ["<b>" ++ fst f ++ "</b>: "
                                ++ escape (str (dict_get d (snd f)))]
                          else [])
                FIELD_ORDER
  /\ format_art_info d =
       join nl (info_lines d ++
                if truthy (dict_get d "objectURL")
                then [url_line (dict_get d "objectURL")] else [])
  /\ (forall f, In f FIELD_ORDER -> truthy (dict_get d (snd f)) = false ->
      forall line, In line (info_lines d) ->
      prefix ("<b>" ++ fst f ++ "</b>") line = false)
  /\ (forall f, In f FIELD_ORDER -> truthy (dict_get d (snd f)) = true ->
      In ("<b>" ++ fst f ++ "</b>: " ++ escape (str (dict_get d (snd f))))
         (info_lines d))
  /\ (forall key, truthy (dict_get d key) = false ->
      format_art_info (dict_remove d key) = format_art_info d
      /\ get_best_image_url (dict_remove d key) = get_best_image_url d)
  /\ (truthy small = true -> get_best_image_url d = Returns small)
  /\ (truthy small = false -> truthy primary = true ->
      get_best_image_url d = Returns primary)
  /\ (truthy small = false -> truthy primary = false ->
      forall x rest, additional = JList (x :: rest) ->
      get_best_image_url d = Returns x)
  /\ (truthy small = false -> truthy primary = false ->
      truthy additional = false ->
      get_best_image_url d = Returns JNull).
Proof.
  cbv zeta.
  split; [exact truthy_false_iff|].
  split; [apply info_lines_by_truthiness|].
  split.
  { unfold format_art_info. destruct (truthy (dict_get d "objectURL")).
    - reflexivity.
    - now rewrite app_nil_r. }
  split.
  { intros f Hf Hfalsy line Hin.
    rewrite info_lines_by_truthiness in Hin. apply in_flat_map in Hin.
    destruct Hin as [g [Hg Hline]].
    destruct (truthy (dict_get d (snd g))) eqn:Htruthy; [|contradiction].
    destruct Hline as [<- | []].
    destruct (prefix ("<b>" ++ fst f ++ "</b>")
                (info_line (fst g) (dict_get d (snd g)))) eqn:Hp; [|reflexivity].
    apply (info_line_label f g _ Hf Hg) in Hp. subst g. congruence. }
  split.
  { intros f Hf Htruthy. rewrite info_lines_by_truthiness.
    apply in_flat_map. exists f. split; [exact Hf|]. rewrite Htruthy. now left. }
  split.
  { intros key Hfalsy.
    destruct (falsy_value_is_like_absent d key Hfalsy) as [_ [H1 [H2 _]]].
    now split. }
  unfold get_best_image_url, py_or.
  destruct (truthy (dict_get d "primaryImageSmall"));
    [| destruct (truthy (dict_get d "primaryImage"))].
  - repeat split; try discriminate; reflexivity.
  - repeat split; try discriminate; reflexivity.
  - split; [discriminate|]. split; [discriminate|]. split.
    + intros _ _ x rest ->. reflexivity.
    + intros _ _ ->. reflexivity.
Qed.

End Truthiness.

Lemma falsy_field_is_dropped_and_skipped_witness :
  @info_lines plain_repr mixed_values
    = ["<b>Title</b>: Untitled"; "<b>Medium</b>: 42"]
  /\ get_best_image_url small_image_blank = Returns (JStr "http://img/2.jpg")
  /\ get_best_image_url additional_only = Returns (JStr "http://img/3.jpg")
  /\ get_best_image_url blank_images = Returns JNull.
Proof.
  split; [| split; [| split]].
  - rewrite (proj1 (proj2 (@falsy_field_is_dropped_and_skipped plain_repr
                             mixed_values))).
    reflexivity.
  - apply (@falsy_field_is_dropped_and_skipped plain_repr small_image_blank);
      reflexivity.
  - apply (proj1 (proj2 (proj2 (proj2 (proj2 (proj2 (proj2 (proj2 (proj2
             (@falsy_field_is_dropped_and_skipped plain_repr additional_only))))))))))
      with (rest := [JStr "http://img/4.jpg"]); reflexivity.
  - apply (@falsy_field_is_dropped_and_skipped plain_repr blank_images);
      reflexivity.
Defined.

(* ================================================================== *)
(** * Properties of the fetcher, the selector and the dispatcher *)
(* ================================================================== *)

(** ** The fetcher *)

Lemma requests_app (t1 t2 : trace) :
  requests (t1 ++ t2)%list = (requests t1 ++ requests t2)%list.
Proof. apply filter_app. Qed.

(** What one call of [fetch_json] does, by the answer of the world. *)
Lemma fetch_json_run (E : env) (t : trace) (url : string) (p : option query) :
  fetch_json url p E t =
  let t1 := (t ++ [EGet url p HEADERS])%list in
  let failed e :=
    (Returns JNull, (t1 ++ [ELog ERROR ("API request failed: " ++ exn_text e)])%list) in
  match http E t url p with
  | NoContext text => (Raises (mkExn OSError text), t)
  | GetRaises e => if fetch_json_catches e then failed e else (Raises e, t1)
  | GetResponse r =>
      if (400 <=? status r)%Z
      then failed (mkExn ClientResponseError (status_error r))
      else match json_body r with
           | Returns j => (Returns j, t1)
           | Raises e => if fetch_json_catches e then failed e else (Raises e, t1)
           end
  end.
Proof.
  unfold fetch_json. unfold bind at 1. unfold create_default_context.
  unfold try_except, bind, session_get, raise_for_status, lift,
    logger_error, emit, ret, raise.
  destruct (http E t url p) as [text | e | r]; cbv zeta.
  - reflexivity.
  - destruct (fetch_json_catches e); reflexivity.
  - destruct (400 <=? status r)%Z.
    + reflexivity.
    + destruct (json_body r) as [j | e]; [reflexivity|].
      destruct (fetch_json_catches e); reflexivity.
Qed.

(** A call that returns has issued one request. *)
Lemma fetch_json_one_request (E : env) (t : trace) (url : string)
      (p : option query) (v : json) (t' : trace) :
  fetch_json url p E t = (Returns v, t') ->
  requests t' = (requests t ++ [EGet url p HEADERS])%list.
Proof.
  rewrite fetch_json_run. cbv zeta. intros H.
  destruct (http E t url p) as [text | e | resp].
  - discriminate H.
  - destruct (fetch_json_catches e); [|discriminate H]. injection H as _ <-.
    rewrite !requests_app. simpl. now rewrite app_nil_r.
  - destruct (400 <=? status resp)%Z.
    + injection H as _ <-. rewrite !requests_app. simpl. now rewrite app_nil_r.
    + destruct (json_body resp) as [j | e].
      * injection H as _ <-. rewrite requests_app. reflexivity.
      * destruct (fetch_json_catches e); [|discriminate H]. injection H as _ <-.
        rewrite !requests_app. simpl. now rewrite app_nil_r.
Qed.

(** A call issues its request, unless the TLS context could not be built. *)
Lemma fetch_json_requests (E : env) (t : trace) (url : string)
      (p : option query) (r : result json) (t' : trace) :
  fetch_json url p E t = (r, t') ->
  (exists e, r = Raises e /\ t' = t)
  \/ requests t' = (requests t ++ [EGet url p HEADERS])%list.
Proof.
  rewrite fetch_json_run. cbv zeta. intros H.
  destruct (http E t url p) as [text | e | resp].
  - injection H as <- <-. left. eexists. split; reflexivity.
  - right. destruct (fetch_json_catches e); injection H as _ <-;
      rewrite ?requests_app; simpl; rewrite ?app_nil_r; reflexivity.
  - right. destruct (400 <=? status resp)%Z.
    + injection H as _ <-. rewrite !requests_app. simpl. now rewrite app_nil_r.
    + destruct (json_body resp) as [j | e].
      * injection H as _ <-. rewrite requests_app. reflexivity.
      * destruct (fetch_json_catches e); injection H as _ <-;
          rewrite ?requests_app; simpl; rewrite ?app_nil_r; reflexivity.
Qed.


(** C5 does not hold as stated: a 200 response with a malformed body makes
    [fetch_json] raise to its caller, and a response with the non-2xx
    status 300 and a JSON body is returned as a success. *)
Lemma fetch_json_other_failures_escape :
  fetch_json SEARCH_URL None (constant_world malformed_body) []
    = (Raises (mkExn JSONDecodeError "Expecting value: line 1 column 1 (char 0)"),
       [EGet SEARCH_URL None HEADERS])
  /\ is_2xx 300 = false
  /\ fetch_json SEARCH_URL None (constant_world multiple_choices) []
    = (Returns (JObj [("total", JInt 0)]), [EGet SEARCH_URL None HEADERS]).
Proof. repeat split. Qed.

(** C5, amended. Whenever the request raises an [aiohttp.ClientError] or
    an [asyncio.TimeoutError], or the status is 400 or higher, or reading
    the body raises one of these two classes, [fetch_json] returns [None]
    after that single request and one error log line, whatever the class
    of the failure. *)
Theorem fetch_json_failure_is_none (E : env) (t : trace) (url : string)
        (p : option query) :
  uniform_failure (http E t url p) ->
  exists msg,
    fetch_json url p E t
    = (Returns JNull, (t ++ [EGet url p HEADERS; ELog ERROR msg])%list)
    /\ requests (t ++ [EGet url p HEADERS; ELog ERROR msg])%list
       = (requests t ++ [EGet url p HEADERS])%list.
Proof.
  intros Hfail.
  assert (Hc : forall e, isinstance e ClientError = true
                         \/ isinstance e TimeoutError = true ->
                         fetch_json_catches e = true).
  { intros e He. unfold fetch_json_catches. apply orb_true_iff. exact He. }
  assert (Hreq : forall msg, requests (t ++ [EGet url p HEADERS; ELog ERROR msg])%list
                             = (requests t ++ [EGet url p HEADERS])%list)
    by (intros; rewrite requests_app; reflexivity).
  rewrite fetch_json_run. cbv zeta. unfold uniform_failure in Hfail.
  destruct (http E t url p) as [text | e | resp].
  - contradiction.
  - rewrite (Hc e Hfail). eexists. split; [|apply Hreq].
    rewrite <- app_assoc. reflexivity.
  - destruct (400 <=? status resp)%Z eqn:Hst.
    + eexists. split; [|apply Hreq]. rewrite <- app_assoc. reflexivity.
    + destruct Hfail as [Hge | [e [Hbody He]]].
      * apply Z.leb_gt in Hst. lia.
      * rewrite Hbody, (Hc e He). eexists. split; [|apply Hreq].
        rewrite <- app_assoc. reflexivity.
Qed.

Section SelectorFacts.
Context {R : PyRepr}.

(** The selector, once the search fetch has answered. *)
Lemma get_random_met_object_after_search (E : env) (t : trace)
      (r0 : result json) (t1 : trace) :
  fetch_json SEARCH_URL (Some search_params) E (t ++ [ESessionOpen])%list = (r0, t1) ->
  get_random_met_object E t =
  match r0 with
  | Raises e => (Raises e, (t1 ++ [ESessionClose])%list)
  | Returns search_data =>
      if negb (truthy search_data) then (Returns JNull, (t1 ++ [ESessionClose])%list)
      else match search_data with
           | JObj d =>
               if negb (truthy (dict_get d "objectIDs"))
               then (Returns JNull, (t1 ++ [ESessionClose])%list)
               else
                 finally
                   (bind (random_choice (dict_get d "objectIDs"))
                      (fun random_id =>
                         fetch_json (MET_BASE_URL ++ "/objects/" ++ str random_id) None))
                   (emit ESessionClose) E t1
           | _ => (Raises (mkExn AttributeError "object has no attribute 'get'"),
                   (t1 ++ [ESessionClose])%list)
           end
  end.
Proof.
  unfold SEARCH_URL. intros H.
  unfold get_random_met_object, with_session.
  unfold bind at 1. unfold emit at 1.
  unfold finally at 1. unfold bind at 1. rewrite H.
  destruct r0 as [v | e]; [| reflexivity].
  unfold bind at 1.
  destruct (truthy v) eqn:Hv; cbn [negb].
  - destruct v as [| b | z | f | s | l | d]; try reflexivity.
    unfold method_get, bind at 1, ret at 1.
    destruct (truthy (dict_get d "objectIDs")) eqn:Hids; cbn [negb].
    + unfold ret at 1. cbv beta iota.
      assert (Hhas : dict_has d "objectIDs" = true) by (apply truthy_present; exact Hids).
      unfold getitem. rewrite Hhas.
      unfold finally, bind, ret.
      destruct (random_choice (dict_get d "objectIDs") E t1) as [[k | e] t2]; [| reflexivity].
      destruct (fetch_json _ None E t2) as [[o | e] t3]; reflexivity.
    + reflexivity.
  - reflexivity.
Qed.

(** C4. Once the search fetch has answered: if it returned nothing or a
    result without identifiers, the search was the only request, and the
    selector returns [None] at once with no further request; and a run of
    the selector that issues any request beyond the search had a search
    result with a non-empty identifier set. *)
Theorem detail_fetch_only_with_identifiers (E : env) (t : trace)
        (r0 : result json) (t1 : trace) :
  fetch_json SEARCH_URL (Some search_params) E (t ++ [ESessionOpen])%list = (r0, t1) ->
  (forall search_data, r0 = Returns search_data -> no_identifiers search_data ->
     get_random_met_object E t = (Returns JNull, (t1 ++ [ESessionClose])%list)
     /\ requests (t1 ++ [ESessionClose])%list = (requests t ++ [search_request])%list)
  /\ (forall r t', get_random_met_object E t = (r, t') ->
      requests t' <> requests t ->
      requests t' <> (requests t ++ [search_request])%list ->
      exists d, r0 = Returns (JObj d) /\ truthy (dict_get d "objectIDs") = true).
Proof.
  intros Hsearch.
  assert (Hopen : requests (t ++ [ESessionOpen])%list = requests t)
    by (rewrite requests_app; apply app_nil_r).
  assert (Hclose : requests (t1 ++ [ESessionClose])%list = requests t1)
    by (rewrite requests_app; apply app_nil_r).
  assert (Hreq : requests (t1 ++ [ESessionClose])%list = requests t
                 \/ requests (t1 ++ [ESessionClose])%list
                    = (requests t ++ [search_request])%list).
  { rewrite Hclose.
    destruct (fetch_json_requests _ _ _ _ _ _ Hsearch) as [[e [_ ->]] | Hone].
    - left. exact Hopen.
    - right. rewrite Hone, Hopen. reflexivity. }
  rewrite (get_random_met_object_after_search E t r0 t1 Hsearch).
  split.
  - intros v -> Hnone. split.
    + destruct Hnone as [Hv | [d [-> Hids]]].
      * rewrite Hv. reflexivity.
      * rewrite Hids. destruct (truthy (JObj d)); reflexivity.
    + rewrite Hclose, (fetch_json_one_request _ _ _ _ _ _ Hsearch), Hopen.
      reflexivity.
  - intros r t' Hrun Hsome Hmore.
    assert (Hstop : t' = (t1 ++ [ESessionClose])%list -> False).
    { intros ->. destruct Hreq as [Hreq | Hreq]; contradiction. }
    destruct r0 as [v | e].
    + destruct (truthy v) eqn:Hv; cbn [negb] in Hrun.
      * destruct v as [| b | z | f | s | l | d];
          try (injection Hrun as _ <-; exfalso; now apply Hstop).
        destruct (truthy (dict_get d "objectIDs")) eqn:Hids; cbn [negb] in Hrun.
        -- exists d. split; [reflexivity | exact Hids].
        -- injection Hrun as _ <-. exfalso. now apply Hstop.
      * injection Hrun as _ <-. exfalso. now apply Hstop.
    + injection Hrun as _ <-. exfalso. now apply Hstop.
Qed.

End SelectorFacts.

(** ** The dispatcher *)

Section DispatcherFacts.
Context {R : PyRepr}.

(** The art command up to the point where the selector has answered. *)
Lemma get_met_art_item_after_selector (update : Update) (E : env) (t0 : trace)
      (met_object : json) (t2 : trace) :
  telegram E (t0 ++ [art_log update])%list (art_action update) = None ->
  get_random_met_object E (t0 ++ art_prelude update)%list = (Returns met_object, t2) ->
  get_met_art_item update E t0 =
  if negb (truthy met_object) then
    reply_text "🚫 Couldn't fetch artwork. Please try again later." None E t2
  else
    match met_object with
    | JObj d =>
        match get_best_image_url d with
        | Returns image_url =>
            if truthy image_url then
              try_except
                (reply_photo image_url (format_art_info d) (Some HTML))
                (fun e => isinstance e Exception)
                (fun e =>
                   bind (logger_error ("Failed to send image: " ++ exn_text e))
                        (fun _ => reply_text (image_fallback_text image_url
                                                (format_art_info d)) (Some HTML)))
                E t2
            else reply_text (no_image_text (format_art_info d)) (Some HTML) E t2
        | Raises e => (Raises e, t2)
        end
    | _ => (Raises (mkExn AttributeError "object has no attribute 'get'"), t2)
    end.
Proof.
  unfold art_prelude, art_log, art_action. intros Haction Hsel.
  unfold get_met_art_item.
  unfold bind at 1. unfold logger_info, emit at 1.
  unfold bind at 1. unfold send_chat_action, call at 1. rewrite Haction.
  unfold bind at 1.
  replace ((t0 ++ [ELog INFO ("Art request from " ++ user_full_name update ++ " ("
                                ++ str_of_int (user_id update) ++ ")")])
             ++ [ESendChatAction (chat_id update) "upload_photo"])%list
    with (t0 ++ [ELog INFO ("Art request from " ++ user_full_name update ++ " ("
                                ++ str_of_int (user_id update) ++ ")");
                 ESendChatAction (chat_id update) "upload_photo"])%list
    by (rewrite <- app_assoc; reflexivity).
  rewrite Hsel.
  destruct (truthy met_object); cbn [negb]; [| reflexivity].
  destruct met_object as [| b | z | f | s | l | d]; try reflexivity.
  unfold bind at 1, ret at 1. unfold bind at 1, lift at 1.
  destruct (get_best_image_url d) as [img | e]; [| reflexivity].
  destruct (truthy img); reflexivity.
Qed.

(** C6. When the selector returns [None], whatever the cause, the art
    command sends exactly the failure text and stops: the reply is the
    only call after the selector, so no request and no photo follows. *)
Theorem no_artwork_sends_failure_text (update : Update) (E : env)
        (t0 t2 : trace) :
  telegram E (t0 ++ [art_log update])%list (art_action update) = None ->
  get_random_met_object E (t0 ++ art_prelude update)%list = (Returns JNull, t2) ->
  let failure :=
    EReplyText "🚫 Couldn't fetch artwork. Please try again later." None in
  get_met_art_item update E t0
    = (call_outcome E t2 failure, (t2 ++ [failure])%list)
  /\ requests (t2 ++ [failure])%list = requests t2
  /\ filter is_photo (t2 ++ [failure])%list = filter is_photo t2.
Proof.
  intros Haction Hsel failure.
  rewrite (get_met_art_item_after_selector update E t0 JNull t2 Haction Hsel).
  split; [reflexivity|]. split.
  - rewrite requests_app. apply app_nil_r.
  - rewrite filter_app. apply app_nil_r.
Qed.

Lemma append_assoc (a b c : string) : (a ++ b) ++ c = a ++ b ++ c.
Proof. induction a as [| x a IH]; simpl; [reflexivity | now rewrite IH]. Qed.

Lemma append_empty_r (a : string) : a ++ "" = a.
Proof. induction a as [| x a IH]; simpl; [reflexivity | now rewrite IH]. Qed.

Lemma contains_refl (s : string) : contains s s.
Proof. exists "", "". simpl. now rewrite append_empty_r. Qed.

Lemma contains_prefix (s post : string) : contains (s ++ post) s.
Proof. exists "", post. reflexivity. Qed.

Lemma contains_app_r (p s sub : string) :
  contains s sub -> contains (p ++ s) sub.
Proof.
  intros [pre [post ->]]. exists (p ++ pre), post. now rewrite append_assoc.
Qed.

(** C7. When the record has an image URL and sending the photo raises an
    exception, the art command logs it and sends a text message that
    contains the raw URL and the caption; the outcome of the command is
    that of this text message, not the failure of the photo. *)
Theorem photo_failure_falls_back_to_text (update : Update) (E : env)
        (t0 t2 : trace) (d : dict) (image_url : json) (e : exn) :
  telegram E (t0 ++ [art_log update])%list (art_action update) = None ->
  get_random_met_object E (t0 ++ art_prelude update)%list = (Returns (JObj d), t2) ->
  get_best_image_url d = Returns image_url ->
  truthy image_url = true ->
  telegram E t2 (EReplyPhoto image_url (format_art_info d) (Some HTML)) = Some e ->
  isinstance e Exception = true ->
  let text :=
    "🖼️ Image available at: " ++ str image_url ++ nl ++ nl ++ format_art_info d in
  let t3 :=
    (t2 ++ [EReplyPhoto image_url (format_art_info d) (Some HTML);
            ELog ERROR ("Failed to send image: " ++ exn_text e)])%list in
  get_met_art_item update E t0
    = (call_outcome E t3 (EReplyText text (Some HTML)),
       (t3 ++ [EReplyText text (Some HTML)])%list)
  /\ contains text (str image_url)
  /\ contains text (format_art_info d).
Proof.
  intros Haction Hsel Himg Htruthy Hphoto Hexc text t3.
  rewrite (get_met_art_item_after_selector update E t0 (JObj d) t2 Haction Hsel).
  destruct d as [| kv rest].
  { (* an empty record has no image *)
    injection Himg as <-. discriminate. }
  cbn [truthy negb].
  rewrite Himg, Htruthy.
  split; [| split].
  - unfold try_except, reply_photo, call at 1. rewrite Hphoto, Hexc.
    unfold bind, logger_error, emit, reply_text, call, call_outcome.
    subst t3 text. unfold image_fallback_text.
    rewrite <- app_assoc. reflexivity.
  - apply contains_app_r, contains_prefix.
  - do 4 apply contains_app_r. apply contains_refl.
Qed.

(** C8, amended. When the record has no image URL, the art command sends
    one HTML text message made of the notice "No image available for this
    artwork", an empty line and the caption, and no photo. *)
Theorem no_image_sends_notice_and_caption (update : Update) (E : env)
        (t0 t2 : trace) (d : dict) (image_url : json) :
  telegram E (t0 ++ [art_log update])%list (art_action update) = None ->
  get_random_met_object E (t0 ++ art_prelude update)%list = (Returns (JObj d), t2) ->
  d <> [] ->
  get_best_image_url d = Returns image_url ->
  truthy image_url = false ->
  let text :=
    "❌ No image available for this artwork" ++ nl ++ nl ++ format_art_info d in
  get_met_art_item update E t0
    = (call_outcome E t2 (EReplyText text (Some HTML)),
       (t2 ++ [EReplyText text (Some HTML)])%list)
  /\ filter is_photo (t2 ++ [EReplyText text (Some HTML)])%list = filter is_photo t2.
Proof.
  intros Haction Hsel Hd Himg Hfalsy text.
  rewrite (get_met_art_item_after_selector update E t0 (JObj d) t2 Haction Hsel).
  destruct d as [| kv rest]; [contradiction|]. cbn [truthy negb].
  rewrite Himg, Hfalsy. split.
  - reflexivity.
  - rewrite filter_app. apply app_nil_r.
Qed.

(** C9. After the typing indicator and the half-second pause, the echo
    handler replies with exactly the text it received. *)
Theorem echo_replies_with_received_text (update : Update) (E : env) (t : trace) :
  telegram E t (ESendChatAction (chat_id update) "typing") = None ->
  let t2 := (t ++ [ESendChatAction (chat_id update) "typing"; ESleep 0.5])%list in
  echo update E t
    = (call_outcome E t2 (EReplyText (message_text update) None),
       (t2 ++ [EReplyText (message_text update) None])%list).
Proof.
  intros Haction t2. unfold echo.
  unfold bind at 1. unfold send_chat_action, call at 1. rewrite Haction.
  unfold bind, sleep, emit, reply_text, call, call_outcome.
  subst t2. rewrite <- !app_assoc. reflexivity.
Qed.

End DispatcherFacts.

(* ================================================================== *)
(** * The properties at concrete records and worlds *)
(* ================================================================== *)


Lemma detail_fetch_only_with_identifiers_witness :
  @get_random_met_object plain_repr (constant_world empty_search) []
  = (Returns JNull, [ESessionOpen; search_request; ESessionClose]).
Proof.
  apply (proj1 (@detail_fetch_only_with_identifiers plain_repr
                  (constant_world empty_search) []
                  (Returns (JObj [("total", JInt 0); ("objectIDs", JNull)]))
                  [ESessionOpen; search_request] eq_refl)
               (JObj [("total", JInt 0); ("objectIDs", JNull)]) eq_refl).
  right. exists [("total", JInt 0); ("objectIDs", JNull)]. split; reflexivity.
Defined.

Lemma fetch_json_failure_is_none_witness :
  uniform_failure (http (constant_world timed_out) [] SEARCH_URL None)
  /\ exists msg,
       fetch_json SEARCH_URL None (constant_world timed_out) []
       = (Returns JNull, [EGet SEARCH_URL None HEADERS; ELog ERROR msg])
       /\ requests [EGet SEARCH_URL None HEADERS; ELog ERROR msg]
          = [EGet SEARCH_URL None HEADERS].
Proof.
  assert (H : uniform_failure (http (constant_world timed_out) [] SEARCH_URL None))
    by (right; reflexivity).
  split; [exact H|].
  exact (fetch_json_failure_is_none (constant_world timed_out) [] SEARCH_URL None H).
Defined.

Lemma no_artwork_sends_failure_text_witness :
  @get_met_art_item plain_repr ann_update (constant_world timed_out) []
  = (Returns tt,
     (art_prelude ann_update
      ++ [ESessionOpen; search_request; ELog ERROR "API request failed: ";
          ESessionClose;
          EReplyText "🚫 Couldn't fetch artwork. Please try again later." None])%list).
Proof.
  apply (@no_artwork_sends_failure_text plain_repr ann_update
           (constant_world timed_out) []
           (art_prelude ann_update
            ++ [ESessionOpen; search_request; ELog ERROR "API request failed: ";
                ESessionClose])%list eq_refl eq_refl).
Defined.

Lemma photo_failure_falls_back_to_text_witness :
  @get_met_art_item plain_repr ann_update
     (museum starry_night (Some rejected_photo)) []
  = (Returns tt,
     (museum_visit
      ++ [EReplyPhoto (JStr "http://img/1.jpg")
            "<b>Title</b>: Starry &lt;Night&gt;" (Some HTML);
          ELog ERROR "Failed to send image: Wrong file identifier/HTTP URL specified";
          EReplyText ("🖼️ Image available at: http://img/1.jpg" ++ nl ++ nl
                      ++ "<b>Title</b>: Starry &lt;Night&gt;") (Some HTML)])%list).
Proof.
  exact (proj1 (@photo_failure_falls_back_to_text plain_repr ann_update
                  (museum starry_night (Some rejected_photo)) [] museum_visit
                  starry_night (JStr "http://img/1.jpg") rejected_photo
                  eq_refl eq_refl eq_refl eq_refl eq_refl eq_refl)).
Defined.

Lemma no_image_sends_notice_and_caption_witness :
  @get_met_art_item plain_repr ann_update (museum untitled_sketch None) []
  = (Returns tt,
     (museum_visit
      ++ [EReplyText ("❌ No image available for this artwork" ++ nl ++ nl
                      ++ "<b>Title</b>: Sketch") (Some HTML)])%list).
Proof.
  assert (Hd : untitled_sketch <> []) by discriminate.
  exact (proj1 (@no_image_sends_notice_and_caption plain_repr ann_update
                  (museum untitled_sketch None) [] museum_visit untitled_sketch
                  JNull eq_refl eq_refl Hd eq_refl eq_refl)).
Defined.

(** C8 does not hold as stated: for a record without an image the text
    sent is not the caption alone, a notice precedes it. *)
Lemma no_image_text_is_not_the_caption :
  @get_met_art_item plain_repr ann_update (museum untitled_sketch None) []
  = (Returns tt,
     (museum_visit
      ++ [EReplyText ("❌ No image available for this artwork" ++ nl ++ nl
                      ++ "<b>Title</b>: Sketch") (Some HTML)])%list)
  /\ @format_art_info plain_repr untitled_sketch = "<b>Title</b>: Sketch"
  /\ "❌ No image available for this artwork" ++ nl ++ nl ++ "<b>Title</b>: Sketch"
     <> @format_art_info plain_repr untitled_sketch.
Proof.
  split; [reflexivity|]. split; [reflexivity | discriminate].
Qed.

Lemma echo_replies_with_received_text_witness :
  echo ann_update (constant_world timed_out) []
  = (Returns tt,
     [ESendChatAction 7 "typing"; ESleep 0.5; EReplyText "hello" None]).
Proof.
  apply (echo_replies_with_received_text ann_update (constant_world timed_out) []).
  reflexivity.
Defined.

(** ** End-to-end runs *)

(** The search finds two objects, the second is drawn, its record has a
    small image: the photo is sent with the caption. *)
Example art_command_sends_photo :
  @get_met_art_item plain_repr ann_update (museum starry_night None) []
  = (Returns tt,
     (museum_visit
      ++ [EReplyPhoto (JStr "http://img/1.jpg")
            "<b>Title</b>: Starry &lt;Night&gt;" (Some HTML)])%list).
Proof. reflexivity. Qed.

(** The object lookup fails after a successful search: the same failure
    text as for a failed search, and nothing else. *)
Example art_command_detail_fetch_fails :
  @get_met_art_item plain_repr ann_update missing_object []
  = (Returns tt,
     (art_prelude ann_update
      ++ [ESessionOpen; search_request;
          EGet (MET_BASE_URL ++ "/objects/101") None HEADERS;
          ELog ERROR "API request failed: 404, message='Not Found'";
          ESessionClose;
          EReplyText "🚫 Couldn't fetch artwork. Please try again later." None])%list).
Proof. reflexivity. Qed.

(** Integers print in decimal, and a field that is a number is shown as
    its digits. *)
Example number_field_is_printed :
  @format_art_info plain_repr [("objectDate", JInt 1889); ("period", JInt 0)]
  = "<b>Date</b>: 1889".
Proof. reflexivity. Qed.

(* ================================================================== *)
(** * Further properties of the code *)
(* ================================================================== *)

(** ** Escaping, character by character *)

Lemma subst_app (f : ascii -> string) (a b : string) :
  subst f (a ++ b) = subst f a ++ subst f b.
Proof.
  induction a as [| x a IH]; simpl.
  - reflexivity.
  - rewrite IH, append_assoc. reflexivity.
Qed.

Lemma replace_is_subst (c : ascii) (r s : string) :
  replace c r s = subst (fun a => if Ascii.eqb a c then r else String a EmptyString) s.
Proof.
  induction s as [| a s IH]; simpl.
  - reflexivity.
  - rewrite IH. destruct (Ascii.eqb a c); reflexivity.
Qed.

Lemma subst_subst (f g : ascii -> string) (s : string) :
  subst g (subst f s) = subst (fun c => subst g (f c)) s.
Proof.
  induction s as [| a s IH]; simpl.
  - reflexivity.
  - rewrite subst_app, IH. reflexivity.
Qed.

Lemma subst_ext (f g : ascii -> string) (s : string) :
  (forall c, f c = g c) -> subst f s = subst g s.
Proof.
  intros H. induction s as [| a s IH]; simpl; [reflexivity | now rewrite H, IH].
Qed.

Lemma escape_is_subst (s : string) : escape s = subst escape_char s.
Proof.
  unfold escape. rewrite !replace_is_subst, !subst_subst.
  apply subst_ext. intros c.
  destruct c as [[] [] [] [] [] [] [] []]; reflexivity.
Qed.

Lemma escape_char_cases (c : ascii) :
  (c = "&"%char /\ escape_char c = "&amp;")
  \/ (c = "<"%char /\ escape_char c = "&lt;")
  \/ (c = ">"%char /\ escape_char c = "&gt;")
  \/ (c = dquote /\ escape_char c = "&quot;")
  \/ (c = "'"%char /\ escape_char c = "&#x27;")
  \/ (is_special c = false /\ escape_char c = String c EmptyString).
Proof.
  unfold escape_char, is_special, is_markup.
  destruct (Ascii.eqb_spec c "&"%char) as [->|_]; [now left|].
  destruct (Ascii.eqb_spec c "<"%char) as [->|_]; [right; now left|].
  destruct (Ascii.eqb_spec c ">"%char) as [->|_]; [right; right; now left|].
  destruct (Ascii.eqb_spec c dquote) as [->|_]; [right; right; right; now left|].
  destruct (Ascii.eqb_spec c "'"%char) as [->|_];
    [right; right; right; right; now left|].
  right; right; right; right; right. split; reflexivity.
Qed.

Lemma subst_escape_char_injective (a b : string) :
  subst escape_char a = subst escape_char b -> a = b.
Proof.
  revert b. induction a as [| c a IH]; intros [| d b] H.
  - reflexivity.
  - exfalso. simpl in H.
    destruct (escape_char_cases d) as [[_ E]|[[_ E]|[[_ E]|[[_ E]|[[_ E]|[_ E]]]]]];
      rewrite E in H; discriminate.
  - exfalso. simpl in H.
    destruct (escape_char_cases c) as [[_ E]|[[_ E]|[[_ E]|[[_ E]|[[_ E]|[_ E]]]]]];
      rewrite E in H; discriminate.
  - simpl in H.
    destruct (escape_char_cases c) as [[Hc E]|[[Hc E]|[[Hc E]|[[Hc E]|[[Hc E]|[Hc E]]]]]];
    destruct (escape_char_cases d) as [[Hd F]|[[Hd F]|[[Hd F]|[[Hd F]|[[Hd F]|[Hd F]]]]]];
      rewrite E, F in H; simpl in H;
      try discriminate;
      try (subst c d; injection H as H; f_equal; apply IH; exact H);
      try (subst c; injection H as Hh H; subst d; discriminate Hd);
      try (subst d; injection H as Hh H; subst c; discriminate Hc).
    injection H as Hh H. subst d. f_equal. apply IH, H.
Qed.

Lemma subst_escape_char_plain (s : string) :
  plain_text s -> subst escape_char s = s.
Proof.
  unfold plain_text. induction s as [| c s IH]; simpl; intros H.
  - reflexivity.
  - apply andb_true_iff in H. destruct H as [Hc Hs].
    apply negb_true_iff in Hc.
    destruct (escape_char_cases c) as [[-> _]|[[-> _]|[[-> _]|[[-> _]|[[-> _]|[_ E]]]]]];
      try discriminate Hc.
    rewrite E, (IH Hs). reflexivity.
Qed.

(** X1. [html.escape], as the caption uses it, rewrites every character on its
    own and only once: the five passes together write the entity of each
    of the five special characters and leave every other character, so the
    ampersand of an entity is never escaped a second time. *)
Theorem escape_rewrites_each_character_once (s : string) :
  escape s = subst escape_char s.
Proof. apply escape_is_subst. Qed.

Lemma append_inv_head (p a b : string) : p ++ a = p ++ b -> a = b.
Proof.
  induction p as [| x p IH]; simpl; intros H; [exact H|].
  injection H as H. apply IH, H.
Qed.

Lemma join_snoc (sep x : string) (l : list string) :
  join sep (l ++ [x]) =
  match l with
  | [] => x
  | _ :: _ => join sep l ++ sep ++ x
  end.
Proof.
  unfold join. induction l as [| a l IH]; simpl.
  - reflexivity.
  - destruct l as [| b l]; simpl in *.
    + reflexivity.
    + rewrite IH, !append_assoc. reflexivity.
Qed.

Lemma join_cons_nonempty (sep x : string) (l : list string) :
  x <> "" -> join sep (x :: l) <> "".
Proof.
  unfold join. intros Hx. simpl. destruct l as [| b l].
  - exact Hx.
  - destruct x as [| c x]; [contradiction | discriminate].
Qed.

Section FormatterMore.
Context {R : PyRepr}.

(** X2. Escaping loses nothing: two values that give the same caption line
    under a label have the same text. *)
Theorem info_line_injective (key : string) (v1 v2 : json) :
  info_line key v1 = info_line key v2 -> str v1 = str v2.
Proof.
  unfold info_line. intros H.
  apply append_inv_head in H. apply append_inv_head in H.
  apply append_inv_head in H.
  rewrite !escape_is_subst in H. apply subst_escape_char_injective, H.
Qed.

(** X3. A text value without any of the five special characters appears in
    its caption line exactly as it is. *)
Theorem info_line_plain_text (key s : string) :
  plain_text s -> info_line key (JStr s) = "<b>" ++ key ++ "</b>: " ++ s.
Proof.
  intros H. unfold info_line. simpl str.
  rewrite escape_is_subst, (subst_escape_char_plain s H). reflexivity.
Qed.

(** X4. The caption is the empty string exactly when none of the seven
    fields has a truthy value and there is no truthy object URL. *)
Theorem format_art_info_empty_iff (d : dict) :
  format_art_info d = ""
  <-> (forall f, In f FIELD_ORDER -> truthy (dict_get d (snd f)) = false)
      /\ truthy (dict_get d "objectURL") = false.
Proof.
  unfold format_art_info. rewrite info_lines_by_truthiness. split.
  - intros H. assert (Hlines : flat_map
        (fun f => if truthy (dict_get d (snd f))
                  then [info_line (fst f) (dict_get d (snd f))] else [])
        FIELD_ORDER = [] /\ truthy (dict_get d "objectURL") = false).
    { destruct (truthy (dict_get d "objectURL")) eqn:Hu.
      - exfalso. rewrite join_snoc in H.
        destruct (flat_map _ FIELD_ORDER) as [| l0 ls].
        + discriminate H.
        + destruct (join nl (l0 :: ls)); discriminate H.
      - split; [|reflexivity].
        destruct (flat_map _ FIELD_ORDER) as [| l0 ls] eqn:Hfm; [reflexivity|].
        exfalso. revert H. apply join_cons_nonempty.
        assert (Hin : In l0 (l0 :: ls)) by now left.
        rewrite <- Hfm in Hin. apply in_flat_map in Hin.
        destruct Hin as [f [_ Hf]].
        destruct (truthy (dict_get d (snd f))); [|contradiction].
        destruct Hf as [<-|[]]. discriminate. }
    destruct Hlines as [Hnil Hu]. split; [|exact Hu].
    intros f Hin. destruct (truthy (dict_get d (snd f))) eqn:Hf; [|reflexivity].
    exfalso.
    assert (Hmem : In (info_line (fst f) (dict_get d (snd f)))
              (flat_map (fun f => if truthy (dict_get d (snd f))
                  then [info_line (fst f) (dict_get d (snd f))] else [])
                 FIELD_ORDER)).
    { apply in_flat_map. exists f. split; [exact Hin|]. rewrite Hf. now left. }
    rewrite Hnil in Hmem. exact Hmem.
  - intros [Hall Hu]. rewrite Hu.
    assert (Hnil : flat_map
        (fun f => if truthy (dict_get d (snd f))
                  then [info_line (fst f) (dict_get d (snd f))] else [])
        FIELD_ORDER = []).
    { destruct (flat_map _ FIELD_ORDER) as [| l0 ls] eqn:Hfm; [reflexivity|].
      exfalso. assert (Hin : In l0 (l0 :: ls)) by now left.
      rewrite <- Hfm in Hin. apply in_flat_map in Hin.
      destruct Hin as [f [Hin Hf]]. rewrite (Hall f Hin) in Hf. exact Hf. }
    rewrite Hnil. reflexivity.
Qed.

(** X5. When the record has an object URL the caption ends with the link;
    the link follows the field lines after an empty line, and when there
    is no field line the caption is a newline followed by the link. *)
Theorem format_art_info_link_line (d : dict) :
  truthy (dict_get d "objectURL") = true ->
  format_art_info d =
  match info_lines d with
  | [] => nl ++ "<a href=" ++ String dquote (str (dict_get d "objectURL"))
             ++ String dquote ">View on Met website</a>"
  | _ :: _ =>
      join nl (info_lines d) ++ nl ++ nl
      ++ "<a href=" ++ String dquote (str (dict_get d "objectURL"))
      ++ String dquote ">View on Met website</a>"
  end.
Proof.
  intros Hu. unfold format_art_info. rewrite Hu, join_snoc.
  destruct (info_lines d); reflexivity.
Qed.


End FormatterMore.

(** ** More on the fetcher *)

(** The trace of one call: nothing when the TLS context cannot be built,
    else the request, followed by one error line when a failure becomes
    [None]. *)
Lemma fetch_json_trace (E : env) (t : trace) (url : string) (p : option query)
      (r : result json) (t' : trace) :
  fetch_json url p E t = (r, t') ->
  (exists e, r = Raises e /\ t' = t)
  \/ t' = (t ++ [EGet url p HEADERS])%list
  \/ exists msg, r = Returns JNull
                 /\ t' = (t ++ [EGet url p HEADERS; ELog ERROR msg])%list.
Proof.
  rewrite fetch_json_run. cbv zeta. intros H.
  destruct (http E t url p) as [text | e | resp].
  - injection H as <- <-. left. eexists. split; reflexivity.
  - right. destruct (fetch_json_catches e); injection H as <- <-.
    + right. eexists. split; [reflexivity|]. now rewrite <- app_assoc.
    + now left.
  - right. destruct (400 <=? status resp)%Z.
    + injection H as <- <-. right. eexists. split; [reflexivity|].
      now rewrite <- app_assoc.
    + destruct (json_body resp) as [j | e].
      * injection H as <- <-. now left.
      * destruct (fetch_json_catches e); injection H as <- <-.
        -- right. eexists. split; [reflexivity|]. now rewrite <- app_assoc.
        -- now left.
Qed.

(** X7. [fetch_json] raises [e] in exactly two situations.  The TLS context
    could not be built: [e] is the [OSError] of
    [ssl.create_default_context], no request was made and nothing was
    logged.  Or [e] is outside the two classes of the [except] clause and
    was raised by the request, or by reading the body of a response with a
    status below 400: one request was made and nothing was logged. *)
Theorem fetch_json_raises_iff (E : env) (t : trace) (url : string)
        (p : option query) (e : exn) (t' : trace) :
  fetch_json url p E t = (Raises e, t')
  <-> (exists text, http E t url p = NoContext text
                    /\ e = mkExn OSError text /\ t' = t)
      \/ (fetch_json_catches e = false
          /\ t' = (t ++ [EGet url p HEADERS])%list
          /\ (http E t url p = GetRaises e
              \/ exists r, http E t url p = GetResponse r
                           /\ (status r < 400)%Z /\ json_body r = Raises e)).
Proof.
  rewrite fetch_json_run. cbv zeta. split.
  - destruct (http E t url p) as [text | e0 | resp].
    + intros H. injection H as <- <-. left. exists text. now repeat split.
    + destruct (fetch_json_catches e0) eqn:Hc; [discriminate|].
      intros H. injection H as -> <-. right. repeat split; [exact Hc | now left].
    + destruct (400 <=? status resp)%Z eqn:Hst; [discriminate|].
      destruct (json_body resp) as [j | e0] eqn:Hb; [discriminate|].
      destruct (fetch_json_catches e0) eqn:Hc; [discriminate|].
      intros H. injection H as -> <-. right. repeat split; [exact Hc|].
      right. exists resp. repeat split; [|exact Hb].
      apply Z.leb_gt in Hst. exact Hst.
  - intros [[text [Hget [-> ->]]]
           | [Hc [-> [Hget | [resp [Hget [Hst Hb]]]]]]]; rewrite Hget.
    + reflexivity.
    + rewrite Hc. reflexivity.
    + apply Z.leb_gt in Hst. rewrite Hst, Hb, Hc. reflexivity.
Qed.

(** X8. A response with a status below 400 whose body parses is returned as
    it is, after one request with the fixed headers and without any log
    line. *)
Theorem fetch_json_returns_body (E : env) (t : trace) (url : string)
        (p : option query) (r : response) (body : json) :
  http E t url p = GetResponse r ->
  (status r < 400)%Z ->
  json_body r = Returns body ->
  fetch_json url p E t = (Returns body, (t ++ [EGet url p HEADERS])%list).
Proof.
  intros Hget Hst Hb. rewrite fetch_json_run. cbv zeta.
  apply Z.leb_gt in Hst. rewrite Hget, Hst, Hb. reflexivity.
Qed.

(** X9. Every call of [fetch_json] goes one of three ways.  The TLS
    context cannot be built: it raises before any request.  The request
    is made and fails in a way the [except] clause covers (a
    [ClientError], a [TimeoutError], a status of 400 or more): exactly one
    error line is logged and [None] is returned.  The request is made and
    does not fail that way: nothing is logged.  So an error line is logged
    exactly for the failures that become [None], and no call makes more
    than one request. *)
Theorem fetch_json_logs_exactly_its_failures (E : env) (t : trace)
        (url : string) (p : option query) (r : result json) (t' : trace) :
  fetch_json url p E t = (r, t') ->
  (exists text, http E t url p = NoContext text
                /\ r = Raises (mkExn OSError text) /\ t' = t)
  \/ (uniform_failure (http E t url p)
      /\ r = Returns JNull
      /\ exists msg, t' = (t ++ [EGet url p HEADERS; ELog ERROR msg])%list)
  \/ (~ uniform_failure (http E t url p)
      /\ t' = (t ++ [EGet url p HEADERS])%list).
Proof.
  assert (Hc : forall e, fetch_json_catches e = true
                         <-> isinstance e ClientError = true
                             \/ isinstance e TimeoutError = true).
  { intros e. unfold fetch_json_catches. apply orb_true_iff. }
  rewrite fetch_json_run. cbv zeta. intros H. unfold uniform_failure.
  destruct (http E t url p) as [text | e | resp].
  - injection H as <- <-. left. exists text. now repeat split.
  - right. destruct (fetch_json_catches e) eqn:Hcatch; injection H as <- <-.
    + left. split; [now apply Hc|]. split; [reflexivity|].
      eexists. now rewrite <- app_assoc.
    + right. split; [|reflexivity]. intros Hf. apply Hc in Hf. congruence.
  - right. destruct (400 <=? status resp)%Z eqn:Hst.
    + injection H as <- <-. left. split; [left; now apply Z.leb_le|].
      split; [reflexivity|]. eexists. now rewrite <- app_assoc.
    + apply Z.leb_gt in Hst. destruct (json_body resp) as [j | e] eqn:Hb.
      * injection H as <- <-. right. split; [|reflexivity].
        intros [Hge | [e [He _]]]; [lia | discriminate He].
      * destruct (fetch_json_catches e) eqn:Hcatch; injection H as <- <-.
        -- left. split; [right; exists e; split; [reflexivity | now apply Hc]|].
           split; [reflexivity|]. eexists. now rewrite <- app_assoc.
        -- right. split; [|reflexivity].
           intros [Hge | [e0 [He Hf]]]; [lia|].
           injection He as <-. apply Hc in Hf. congruence.
Qed.

(** ** More on the selector *)

Section SelectorMore.
Context {R : PyRepr}.

(** Drawing makes no call to the outside world, and a draw from a list is
    one of its elements. *)
Lemma random_choice_run (seq : json) (E : env) (t : trace)
      (r : result json) (t' : trace) :
  random_choice seq E t = (r, t') ->
  t' = t
  /\ forall l, seq = JList l -> l <> [] -> exists x, r = Returns x /\ In x l.
Proof.
  intros H. unfold random_choice in H.
  destruct seq as [| b | z | f | s | l | o];
    try (injection H as <- <-; split; [reflexivity | intros ? ?; discriminate]).
  - destruct (characters s); unfold bind, draw, ret, raise in H;
      injection H as <- <-;
      (split; [reflexivity | intros ? ?; discriminate]).
  - destruct l as [| x l].
    + injection H as <- <-. split; [reflexivity|].
      intros l' Hl Hne. injection Hl as <-. contradiction.
    + assert (Hrun : random_choice (JList (x :: l)) E t
                     = (Returns (nth (randbelow E t (length (x :: l))
                                      mod length (x :: l)) (x :: l) JNull), t))
        by reflexivity.
      unfold random_choice in Hrun. rewrite Hrun in H. clear Hrun.
      remember (randbelow E t (length (x :: l)) mod length (x :: l)) as k eqn:Hk.
      assert (Hlt : k < length (x :: l))
        by (subst k; apply Nat.mod_upper_bound; discriminate).
      clear Hk. injection H as <- <-. split; [reflexivity|].
      intros l' Hl _. injection Hl as <-. eexists. split; [reflexivity|].
      exact (nth_In (x :: l) JNull Hlt).
  - destruct o; unfold bind, draw, raise in H; injection H as <- <-;
      (split; [reflexivity | intros ? ?; discriminate]).
Qed.

(** The second half of the selector: the draw, then the detail fetch. *)
Lemma selector_detail_run (ids : json) (E : env) (t1 : trace)
      (r : result json) (t' : trace) :
  finally
    (bind (random_choice ids)
       (fun random_id =>
          fetch_json (MET_BASE_URL ++ "/objects/" ++ str random_id) None))
    (emit ESessionClose) E t1 = (r, t') ->
  (exists e, random_choice ids E t1 = (Raises e, t1)
             /\ r = Raises e /\ t' = (t1 ++ [ESessionClose])%list)
  \/ (exists random_id t3,
        random_choice ids E t1 = (Returns random_id, t1)
        /\ fetch_json (MET_BASE_URL ++ "/objects/" ++ str random_id) None E t1
           = (r, t3)
        /\ t' = (t3 ++ [ESessionClose])%list).
Proof.
  unfold finally, bind, emit.
  destruct (random_choice ids E t1) as [[k | e] t2] eqn:Hc;
    destruct (random_choice_run _ _ _ _ _ Hc) as [-> _].
  - destruct (fetch_json _ None E t1) as [r3 t3] eqn:Hf.
    intros H. injection H as <- <-. right. exists k, t3. now repeat split.
  - intros H. injection H as <- <-. left. exists e. now repeat split.
Qed.

End SelectorMore.

Section SelectorMore2.
Context {R : PyRepr}.

(** Every run of the selector, by what it did after opening the session:
    the search alone, or the search, a draw and the detail fetch. *)
Lemma get_random_met_object_runs (E : env) (t : trace)
      (r : result json) (t' : trace) :
  get_random_met_object E t = (r, t') ->
  exists r0 t1,
    fetch_json SEARCH_URL (Some search_params) E (t ++ [ESessionOpen])%list = (r0, t1)
    /\ (t' = (t1 ++ [ESessionClose])%list
        \/ exists d random_id t3,
             r0 = Returns (JObj d)
             /\ truthy (dict_get d "objectIDs") = true
             /\ random_choice (dict_get d "objectIDs") E t1 = (Returns random_id, t1)
             /\ fetch_json (MET_BASE_URL ++ "/objects/" ++ str random_id) None E t1
                = (r, t3)
             /\ t' = (t3 ++ [ESessionClose])%list).
Proof.
  destruct (fetch_json SEARCH_URL (Some search_params) E (t ++ [ESessionOpen])%list)
    as [r0 t1] eqn:Hsearch.
  rewrite (get_random_met_object_after_search E t r0 t1 Hsearch).
  intros H. exists r0, t1. split; [reflexivity|].
  destruct r0 as [v | e]; [| injection H as _ <-; now left].
  destruct (truthy v) eqn:Hv; cbn [negb] in H; [| injection H as _ <-; now left].
  destruct v as [| b | z | f | s | l | d]; try (injection H as _ <-; now left).
  destruct (truthy (dict_get d "objectIDs")) eqn:Hids; cbn [negb] in H;
    [| injection H as _ <-; now left].
  destruct (selector_detail_run _ _ _ _ _ H)
    as [[e [_ [_ ->]]] | [random_id [t3 [Hc [Hf ->]]]]].
  - now left.
  - right. exists d, random_id, t3. now repeat split.
Qed.

(** A fetch only adds requests and error lines to the trace, and at most
    its own request. *)
Lemma fetch_json_extends (E : env) (t : trace) (url : string)
      (p : option query) (r : result json) (t' : trace) :
  fetch_json url p E t = (r, t') ->
  exists new,
    t' = (t ++ new)%list
    /\ forallb is_fetch_event new = true
    /\ (requests new = [] \/ requests new = [EGet url p HEADERS]).
Proof.
  intros H.
  destruct (fetch_json_trace _ _ _ _ _ _ H) as [[e [_ ->]] | [-> | [msg [_ ->]]]].
  - exists []. rewrite app_nil_r. repeat split. now left.
  - eexists. repeat split. now right.
  - eexists. repeat split. now right.
Qed.

Lemma fetch_events_are_quiet (new : trace) :
  forallb is_fetch_event new = true ->
  filter is_session new = [] /\ filter is_photo new = []
  /\ filter is_text new = [].
Proof.
  induction new as [| ev new IH]; simpl; intros H; [now repeat split|].
  apply andb_true_iff in H. destruct H as [Hev Hnew].
  destruct (IH Hnew) as [H1 [H2 H3]].
  destruct ev; try discriminate Hev; simpl; now repeat split.
Qed.

(** Every run of the selector: the session is opened, one or two fetches
    leave their requests and error lines, the session is closed. *)
Lemma get_random_met_object_extends (E : env) (t : trace)
      (r : result json) (t' : trace) :
  get_random_met_object E t = (r, t') ->
  exists mid,
    t' = (t ++ [ESessionOpen] ++ mid ++ [ESessionClose])%list
    /\ forallb is_fetch_event mid = true
    /\ (requests mid = []
        \/ requests mid = [search_request]
        \/ exists random_id,
             requests mid = [search_request; detail_request random_id]).
Proof.
  intros H.
  destruct (get_random_met_object_runs E t r t' H)
    as [r0 [t1 [Hsearch [-> | [d [k [t3 [Hr0 [_ [_ [Hdetail ->]]]]]]]]]]];
    destruct (fetch_json_extends _ _ _ _ _ _ Hsearch) as [new [-> [Hq Hr]]].
  - exists new. split; [now rewrite <- !app_assoc|]. split; [exact Hq|].
    destruct Hr as [Hr | Hr]; rewrite Hr; [now left | right; now left].
  - destruct (fetch_json_extends _ _ _ _ _ _ Hdetail) as [new' [-> [Hq' Hr']]].
    exists (new ++ new')%list. split; [now rewrite <- !app_assoc|]. split.
    + rewrite forallb_app, Hq, Hq'. reflexivity.
    + rewrite requests_app.
      assert (Hone : requests new = [search_request]).
      { subst r0.
        pose proof (fetch_json_one_request _ _ _ _ _ _ Hsearch) as Hreq.
        rewrite !requests_app in Hreq. cbn in Hreq.
        rewrite app_nil_r in Hreq. apply app_inv_head in Hreq. exact Hreq. }
      rewrite Hone. destruct Hr' as [Hr' | Hr']; rewrite Hr'.
      * right; now left.
      * right; right. now exists k.
Qed.

(** X10. The selector opens the HTTP session first and closes it last on
    every path, whether it returns or raises, and opens or closes no
    session in between. *)
Theorem session_always_closed (E : env) (t : trace) (r : result json)
        (t' : trace) :
  get_random_met_object E t = (r, t') ->
  exists mid,
    t' = (t ++ [ESessionOpen] ++ mid ++ [ESessionClose])%list
    /\ filter is_session mid = [].
Proof.
  intros H.
  destruct (get_random_met_object_extends E t r t' H) as [mid [-> [Hq _]]].
  exists mid. split; [reflexivity|]. now apply fetch_events_are_quiet.
Qed.

(** The requests of a run of the selector. *)
Lemma selector_requests (E : env) (t : trace) (r : result json) (t' : trace) :
  get_random_met_object E t = (r, t') ->
  requests t' = requests t
  \/ requests t' = (requests t ++ [search_request])%list
  \/ exists random_id,
       requests t'
       = (requests t ++ [search_request; detail_request random_id])%list.
Proof.
  intros H.
  destruct (get_random_met_object_extends E t r t' H) as [mid [-> [_ Hr]]].
  rewrite !requests_app. cbn [requests filter is_request app].
  rewrite app_nil_r.
  destruct Hr as [Hr | [Hr | [k Hr]]]; fold (requests mid); rewrite Hr.
  - left. now rewrite app_nil_r.
  - right; now left.
  - right; right. now exists k.
Qed.

(** X11. A run of the selector issues no request at all (when the TLS
    context cannot be built for the search), or the search request alone,
    or the search request followed by the lookup of one object; nothing
    is retried. *)
Theorem selector_issues_at_most_two_requests (E : env) (t : trace)
        (r : result json) (t' : trace) :
  get_random_met_object E t = (r, t') ->
  requests t' = requests t
  \/ requests t' = (requests t ++ [search_request])%list
  \/ exists random_id,
       requests t'
       = (requests t ++ [search_request; detail_request random_id])%list.
Proof. apply selector_requests. Qed.

(** X12. When the search returns a non-empty list of identifiers, the selector
    looks up one identifier of that list and its outcome (a record, [None]
    or an exception) is the outcome of that lookup, the session being
    closed afterwards. *)
Theorem selector_returns_detail_of_listed_id (E : env) (t t1 : trace)
        (d : dict) (ids : list json) :
  fetch_json SEARCH_URL (Some search_params) E (t ++ [ESessionOpen])%list
    = (Returns (JObj d), t1) ->
  dict_get d "objectIDs" = JList ids ->
  ids <> [] ->
  exists random_id r t3,
    In random_id ids
    /\ fetch_json (MET_BASE_URL ++ "/objects/" ++ str random_id) None E t1 = (r, t3)
    /\ get_random_met_object E t = (r, (t3 ++ [ESessionClose])%list).
Proof.
  intros Hsearch Hids Hne.
  rewrite (get_random_met_object_after_search E t _ t1 Hsearch).
  assert (Hd : truthy (JObj d) = true).
  { destruct d; [discriminate Hids | reflexivity]. }
  assert (Ht : truthy (dict_get d "objectIDs") = true).
  { rewrite Hids. destruct ids; [contradiction | reflexivity]. }
  rewrite Hd, Ht. cbn [negb].
  destruct (finally _ _ E t1) as [r t'] eqn:Hrun.
  destruct (selector_detail_run _ _ _ _ _ Hrun)
    as [[e [Hc _]] | [random_id [t3 [Hc [Hf ->]]]]];
    destruct (random_choice_run _ _ _ _ _ Hc) as [_ Hmem];
    destruct (Hmem ids Hids Hne) as [x [Hx Hin]].
  - discriminate Hx.
  - injection Hx as <-. exists random_id, r, t3. now repeat split.
Qed.

(** X13. When the search answers with a truthy JSON value that is not an
    object, the selector raises an [AttributeError] after closing the
    session and makes no further request. *)
Theorem selector_rejects_non_object_result (E : env) (t t1 : trace)
        (search_data : json) :
  fetch_json SEARCH_URL (Some search_params) E (t ++ [ESessionOpen])%list
    = (Returns search_data, t1) ->
  truthy search_data = true ->
  (forall d, search_data <> JObj d) ->
  exists e,
    exn_cls e = AttributeError
    /\ get_random_met_object E t = (Raises e, (t1 ++ [ESessionClose])%list)
    /\ requests (t1 ++ [ESessionClose])%list
       = (requests t ++ [search_request])%list.
Proof.
  intros Hsearch Hv Hnot.
  rewrite (get_random_met_object_after_search E t _ t1 Hsearch), Hv. cbn [negb].
  assert (Hreq : requests (t1 ++ [ESessionClose])%list
                 = (requests t ++ [search_request])%list).
  { rewrite requests_app, (fetch_json_one_request _ _ _ _ _ _ Hsearch),
      requests_app. cbn. now rewrite !app_nil_r. }
  destruct search_data as [| b | z | f | s | l | d];
    try (eexists; split; [| split; [reflexivity | exact Hreq]]; reflexivity).
  exfalso. exact (Hnot d eq_refl).
Qed.

End SelectorMore2.

Section DispatcherMore.
Context {R : PyRepr}.

(** The art command when the chat action raises. *)
Lemma get_met_art_item_action_fails (update : Update) (E : env)
      (t0 : trace) (e : exn) :
  telegram E (t0 ++ [art_log update])%list (art_action update) = Some e ->
  get_met_art_item update E t0 = (Raises e, (t0 ++ art_prelude update)%list).
Proof.
  unfold art_log, art_action, art_prelude. intros Haction.
  unfold get_met_art_item.
  unfold bind at 1. unfold logger_info, emit at 1.
  unfold bind at 1. unfold send_chat_action, call at 1. rewrite Haction.
  rewrite <- app_assoc. reflexivity.
Qed.

(** X14. When the chat action of the art command raises, the command raises
    the same exception at once: no request is made and no text is sent. *)
Theorem art_command_stops_when_chat_action_fails (update : Update) (E : env)
        (t0 : trace) (e : exn) :
  telegram E (t0 ++ [art_log update])%list (art_action update) = Some e ->
  get_met_art_item update E t0 = (Raises e, (t0 ++ art_prelude update)%list)
  /\ requests (t0 ++ art_prelude update)%list = requests t0
  /\ filter is_text (t0 ++ art_prelude update)%list = filter is_text t0.
Proof.
  intros Haction. split; [|split].
  - apply get_met_art_item_action_fails, Haction.
  - rewrite requests_app. apply app_nil_r.
  - rewrite filter_app. apply app_nil_r.
Qed.

(** The art command when the selector raises. *)
Lemma get_met_art_item_selector_raises (update : Update) (E : env)
      (t0 t2 : trace) (e : exn) :
  telegram E (t0 ++ [art_log update])%list (art_action update) = None ->
  get_random_met_object E (t0 ++ art_prelude update)%list = (Raises e, t2) ->
  get_met_art_item update E t0 = (Raises e, t2).
Proof.
  unfold art_prelude, art_log, art_action. intros Haction Hsel.
  unfold get_met_art_item.
  unfold bind at 1. unfold logger_info, emit at 1.
  unfold bind at 1. unfold send_chat_action, call at 1. rewrite Haction.
  unfold bind at 1. rewrite <- app_assoc. cbn [app]. rewrite Hsel. reflexivity.
Qed.

(** X15. When the record has an image and the Bot API accepts the photo, the
    art command sends that one photo with the caption in HTML mode and
    nothing else. *)
Theorem art_command_sends_photo_with_caption (update : Update) (E : env)
        (t0 t2 : trace) (d : dict) (image_url : json) :
  telegram E (t0 ++ [art_log update])%list (art_action update) = None ->
  get_random_met_object E (t0 ++ art_prelude update)%list = (Returns (JObj d), t2) ->
  get_best_image_url d = Returns image_url ->
  truthy image_url = true ->
  telegram E t2 (EReplyPhoto image_url (format_art_info d) (Some HTML)) = None ->
  get_met_art_item update E t0
  = (Returns tt,
     (t2 ++ [EReplyPhoto image_url (format_art_info d) (Some HTML)])%list).
Proof.
  intros Haction Hsel Himg Htruthy Hphoto.
  rewrite (get_met_art_item_after_selector update E t0 (JObj d) t2 Haction Hsel).
  destruct d as [| kv rest]; [injection Himg as <-; discriminate|].
  cbn [truthy negb]. rewrite Himg, Htruthy.
  unfold try_except, reply_photo, call. rewrite Hphoto. reflexivity.
Qed.


(** X17. A falsy record, such as the empty object, is answered like a failed
    fetch: the art command sends the failure text and nothing else. *)
Theorem art_command_reports_empty_record_as_failure (update : Update)
        (E : env) (t0 t2 : trace) (met_object : json) :
  telegram E (t0 ++ [art_log update])%list (art_action update) = None ->
  get_random_met_object E (t0 ++ art_prelude update)%list
    = (Returns met_object, t2) ->
  truthy met_object = false ->
  let failure :=
    EReplyText "🚫 Couldn't fetch artwork. Please try again later." None in
  get_met_art_item update E t0
  = (call_outcome E t2 failure, (t2 ++ [failure])%list).
Proof.
  intros Haction Hsel Hfalsy failure.
  rewrite (get_met_art_item_after_selector update E t0 met_object t2 Haction Hsel).
  rewrite Hfalsy. reflexivity.
Qed.

(** X18. When sending the photo raises something that is not an [Exception]
    (a cancellation), the art command raises it without logging and without
    the fallback text. *)
Theorem art_command_lets_cancellation_through (update : Update) (E : env)
        (t0 t2 : trace) (d : dict) (image_url : json) (e : exn) :
  telegram E (t0 ++ [art_log update])%list (art_action update) = None ->
  get_random_met_object E (t0 ++ art_prelude update)%list = (Returns (JObj d), t2) ->
  get_best_image_url d = Returns image_url ->
  truthy image_url = true ->
  telegram E t2 (EReplyPhoto image_url (format_art_info d) (Some HTML)) = Some e ->
  isinstance e Exception = false ->
  get_met_art_item update E t0
  = (Raises e,
     (t2 ++ [EReplyPhoto image_url (format_art_info d) (Some HTML)])%list).
Proof.
  intros Haction Hsel Himg Htruthy Hphoto Hbase.
  rewrite (get_met_art_item_after_selector update E t0 (JObj d) t2 Haction Hsel).
  destruct d as [| kv rest]; [injection Himg as <-; discriminate|].
  cbn [truthy negb]. rewrite Himg, Htruthy.
  unfold try_except, reply_photo, call. rewrite Hphoto, Hbase. reflexivity.
Qed.

(** X19. When the image selection raises on the record, the art command
    raises the same exception and sends nothing to the chat. *)
Theorem art_command_raises_on_unusable_images (update : Update) (E : env)
        (t0 t2 : trace) (d : dict) (e : exn) :
  telegram E (t0 ++ [art_log update])%list (art_action update) = None ->
  get_random_met_object E (t0 ++ art_prelude update)%list = (Returns (JObj d), t2) ->
  get_best_image_url d = Raises e ->
  get_met_art_item update E t0 = (Raises e, t2).
Proof.
  intros Haction Hsel Himg.
  rewrite (get_met_art_item_after_selector update E t0 (JObj d) t2 Haction Hsel).
  destruct d as [| kv rest]; [discriminate Himg|].
  cbn [truthy negb]. rewrite Himg. reflexivity.
Qed.

(** X20. When the selector returns a truthy JSON value that is not an object,
    the art command raises an [AttributeError] and sends nothing to the
    chat. *)
Theorem art_command_raises_on_non_object_record (update : Update) (E : env)
        (t0 t2 : trace) (met_object : json) :
  telegram E (t0 ++ [art_log update])%list (art_action update) = None ->
  get_random_met_object E (t0 ++ art_prelude update)%list
    = (Returns met_object, t2) ->
  truthy met_object = true ->
  (forall d, met_object <> JObj d) ->
  exists e, exn_cls e = AttributeError
            /\ get_met_art_item update E t0 = (Raises e, t2).
Proof.
  intros Haction Hsel Htruthy Hnot.
  rewrite (get_met_art_item_after_selector update E t0 met_object t2 Haction Hsel).
  rewrite Htruthy. cbn [negb].
  destruct met_object as [| b | z | f | s | l | d];
    try (eexists; split; [|reflexivity]; reflexivity).
  exfalso. exact (Hnot d eq_refl).
Qed.

(** Every run of the art command: it stopped at the chat action, or the
    selector ran and at most one answer followed. *)
Lemma get_met_art_item_runs (update : Update) (E : env) (t0 : trace)
      (r : result unit) (t' : trace) :
  get_met_art_item update E t0 = (r, t') ->
  t' = (t0 ++ art_prelude update)%list
  \/ exists r0 t2 tail,
       get_random_met_object E (t0 ++ art_prelude update)%list = (r0, t2)
       /\ t' = (t2 ++ tail)%list /\ art_answer tail.
Proof.
  intros H.
  destruct (telegram E (t0 ++ [art_log update])%list (art_action update))
    as [e |] eqn:Haction.
  { left.
    rewrite (get_met_art_item_action_fails update E t0 e Haction) in H.
    now injection H as _ <-. }
  right.
  destruct (get_random_met_object E (t0 ++ art_prelude update)%list)
    as [r0 t2] eqn:Hsel.
  exists r0, t2. unfold art_answer.
  destruct r0 as [v | e].
  2:{ rewrite (get_met_art_item_selector_raises _ _ _ _ _ Haction Hsel) in H.
      injection H as _ <-. exists []. rewrite app_nil_r. repeat split. now left. }
  rewrite (get_met_art_item_after_selector update E t0 v t2 Haction Hsel) in H.
  destruct (truthy v); cbn [negb] in H.
  2:{ unfold reply_text, call in H. injection H as _ <-.
      eexists. repeat split. right; left. eauto. }
  destruct v as [| b | z | f | s | l | d];
    try (injection H as _ <-; exists []; rewrite app_nil_r; repeat split; now left).
  destruct (get_best_image_url d) as [img | e].
  2:{ injection H as _ <-. exists []. rewrite app_nil_r. repeat split. now left. }
  destruct (truthy img).
  2:{ unfold reply_text, call in H. injection H as _ <-.
      eexists. repeat split. right; left. eauto. }
  unfold try_except, reply_photo, call at 1 in H.
  destruct (telegram E t2 (EReplyPhoto img (format_art_info d) (Some HTML)))
    as [e |].
  2:{ injection H as _ <-. eexists. repeat split. right; right; left. eauto. }
  destruct (isinstance e Exception).
  2:{ injection H as _ <-. eexists. repeat split. right; right; left. eauto. }
  unfold bind, logger_error, emit, reply_text, call in H.
  injection H as _ <-. eexists. split; [reflexivity|]. split.
  - rewrite <- !app_assoc. cbn [app]. reflexivity.
  - right; right; right. do 6 eexists. reflexivity.
Qed.

End DispatcherMore.

Section DispatcherMore2.
Context {R : PyRepr}.

(** The selector talks to the museum only: no message goes to the chat. *)
Lemma selector_sends_nothing (E : env) (t : trace) (r : result json)
      (t' : trace) :
  get_random_met_object E t = (r, t') ->
  exists new, t' = (t ++ new)%list
              /\ filter is_photo new = [] /\ filter is_text new = [].
Proof.
  intros H.
  destruct (get_random_met_object_extends E t r t' H) as [mid [-> [Hq _]]].
  destruct (fetch_events_are_quiet mid Hq) as [_ [Hp Ht]].
  exists ([ESessionOpen] ++ mid ++ [ESessionClose])%list.
  split; [reflexivity|].
  cbn [app filter is_photo is_text]. rewrite !filter_app, Hp, Ht. now split.
Qed.

(** X21. A run of the art command issues no request, the search request
    alone, or the search request followed by one object lookup. *)
Theorem art_command_issues_at_most_two_requests (update : Update) (E : env)
        (t0 : trace) (r : result unit) (t' : trace) :
  get_met_art_item update E t0 = (r, t') ->
  requests t' = requests t0
  \/ requests t' = (requests t0 ++ [search_request])%list
  \/ exists random_id,
       requests t'
       = (requests t0 ++ [search_request; detail_request random_id])%list.
Proof.
  intros H.
  assert (Hpre : requests (t0 ++ art_prelude update)%list = requests t0)
    by (rewrite requests_app; apply app_nil_r).
  destruct (get_met_art_item_runs update E t0 r t' H)
    as [-> | [r0 [t2 [tail [Hsel [-> Htail]]]]]].
  - left. exact Hpre.
  - assert (Hnone : requests tail = []).
    { destruct Htail as [-> | [[text [mode ->]] | [[p [c [m ->]]]
        | [p [c [m [msg [text [mode ->]]]]]]]]]; reflexivity. }
    rewrite requests_app, Hnone, app_nil_r.
    destruct (selector_requests _ _ _ _ Hsel)
      as [Hreq | [Hreq | [k Hreq]]]; rewrite Hreq, Hpre.
    + now left.
    + right; now left.
    + right; right. now exists k.
Qed.

(** X22. A run of the art command sends at most one photo and at most one
    text message. *)
Theorem art_command_answers_at_most_once (update : Update) (E : env)
        (t0 : trace) (r : result unit) (t' : trace) :
  get_met_art_item update E t0 = (r, t') ->
  exists new,
    t' = (t0 ++ new)%list
    /\ length (filter is_photo new) <= 1
    /\ length (filter is_text new) <= 1.
Proof.
  intros H.
  destruct (get_met_art_item_runs update E t0 r t' H)
    as [-> | [r0 [t2 [tail [Hsel [-> Htail]]]]]].
  - exists (art_prelude update). split; [reflexivity|]. cbn. lia.
  - destruct (selector_sends_nothing _ _ _ _ Hsel) as [new [-> [Hp Ht]]].
    exists (art_prelude update ++ new ++ tail)%list. split.
    + now rewrite <- !app_assoc.
    + rewrite !filter_app, Hp, Ht. cbn [app].
      destruct Htail as [-> | [[text [mode ->]] | [[p [c [m ->]]]
        | [p [c [m [msg [text [mode ->]]]]]]]]]; cbn; lia.
Qed.

End DispatcherMore2.

(** X23. When the typing indicator of the echo handler raises, the handler
    raises the same exception without pausing and without replying. *)
Theorem echo_stops_when_chat_action_fails (update : Update) (E : env)
        (t : trace) (e : exn) :
  telegram E t (ESendChatAction (chat_id update) "typing") = Some e ->
  echo update E t
  = (Raises e, (t ++ [ESendChatAction (chat_id update) "typing"])%list).
Proof.
  intros Haction. unfold echo.
  unfold bind at 1. unfold send_chat_action, call at 1. rewrite Haction.
  reflexivity.
Qed.

Lemma info_line_injective_witness :
  @info_line plain_repr "Date" (JInt 1889) = @info_line plain_repr "Date" (JStr "1889")
  /\ @str plain_repr (JInt 1889) = @str plain_repr (JStr "1889").
Proof.
  split; [reflexivity|].
  apply (@info_line_injective plain_repr "Date"). reflexivity.
Defined.

Lemma info_line_plain_text_witness :
  plain_text "Oil on canvas"
  /\ @info_line plain_repr "Medium" (JStr "Oil on canvas")
     = "<b>Medium</b>: Oil on canvas".
Proof.
  split; [reflexivity|].
  apply (@info_line_plain_text plain_repr "Medium" "Oil on canvas"). reflexivity.
Defined.

Lemma format_art_info_link_line_witness :
  @format_art_info plain_repr link_only
  = nl ++ "<a href="
       ++ String dquote "https://www.metmuseum.org/art/collection/search/202"
       ++ String dquote ">View on Met website</a>".
Proof.
  apply (@format_art_info_link_line plain_repr link_only). reflexivity.
Defined.

Lemma fetch_json_returns_body_witness :
  fetch_json SEARCH_URL (Some search_params) (constant_world (ok search_hits)) []
  = (Returns search_hits, [search_request]).
Proof.
  apply (fetch_json_returns_body (constant_world (ok search_hits)) [] SEARCH_URL
           (Some search_params) (mkResponse 200 "" (Returns search_hits))
           search_hits eq_refl); [simpl; lia | reflexivity].
Defined.

Lemma fetch_json_logs_exactly_its_failures_witness :
  (exists text, timed_out = NoContext text
                /\ Returns JNull = Raises (mkExn OSError text)
                /\ [EGet SEARCH_URL None HEADERS; ELog ERROR "API request failed: "]
                   = [])
  \/ (uniform_failure timed_out
      /\ @Returns json JNull = Returns JNull
      /\ exists msg,
           [EGet SEARCH_URL None HEADERS; ELog ERROR "API request failed: "]
           = [EGet SEARCH_URL None HEADERS; ELog ERROR msg])
  \/ (~ uniform_failure timed_out
      /\ [EGet SEARCH_URL None HEADERS; ELog ERROR "API request failed: "]
         = [EGet SEARCH_URL None HEADERS]).
Proof.
  exact (fetch_json_logs_exactly_its_failures (constant_world timed_out) []
           SEARCH_URL None (Returns JNull)
           [EGet SEARCH_URL None HEADERS; ELog ERROR "API request failed: "]
           eq_refl).
Defined.

Lemma session_always_closed_witness :
  exists mid,
    [ESessionOpen; search_request; ESessionClose]
    = ([] ++ [ESessionOpen] ++ mid ++ [ESessionClose])%list
    /\ filter is_session mid = [].
Proof.
  exact (@session_always_closed plain_repr (constant_world empty_search) []
           (Returns JNull) [ESessionOpen; search_request; ESessionClose] eq_refl).
Defined.

Lemma selector_issues_at_most_two_requests_witness :
  requests museum_visit = requests (art_prelude ann_update)
  \/ requests museum_visit
     = (requests (art_prelude ann_update) ++ [search_request])%list
  \/ exists random_id,
       requests museum_visit
       = (requests (art_prelude ann_update)
          ++ [search_request; @detail_request plain_repr random_id])%list.
Proof.
  exact (@selector_issues_at_most_two_requests plain_repr
           (museum starry_night None) (art_prelude ann_update)
           (Returns (JObj starry_night)) museum_visit eq_refl).
Defined.

Lemma selector_returns_detail_of_listed_id_witness :
  exists random_id r t3,
    In random_id [JInt 101; JInt 202]
    /\ fetch_json (MET_BASE_URL ++ "/objects/" ++ @str plain_repr random_id) None
         (museum starry_night None) search_done = (r, t3)
    /\ @get_random_met_object plain_repr (museum starry_night None)
         (art_prelude ann_update) = (r, (t3 ++ [ESessionClose])%list).
Proof.
  assert (Hne : [JInt 101; JInt 202] <> []) by discriminate.
  exact (@selector_returns_detail_of_listed_id plain_repr
           (museum starry_night None) (art_prelude ann_update) search_done
           [("total", JInt 2); ("objectIDs", JList [JInt 101; JInt 202])]
           [JInt 101; JInt 202] eq_refl eq_refl Hne).
Defined.

Lemma selector_rejects_non_object_result_witness :
  exists e,
    exn_cls e = AttributeError
    /\ @get_random_met_object plain_repr
         (constant_world (ok (JList [JInt 101]))) []
       = (Raises e, [ESessionOpen; search_request; ESessionClose])
    /\ requests [ESessionOpen; search_request; ESessionClose] = [search_request].
Proof.
  assert (Hnot : forall d, JList [JInt 101] <> JObj d) by discriminate.
  exact (@selector_rejects_non_object_result plain_repr
           (constant_world (ok (JList [JInt 101]))) []
           [ESessionOpen; search_request] (JList [JInt 101])
           eq_refl eq_refl Hnot).
Defined.

Lemma art_command_stops_when_chat_action_fails_witness :
  @get_met_art_item plain_repr ann_update telegram_down []
  = (Raises (mkExn TelegramError "Timed out"), art_prelude ann_update).
Proof.
  exact (proj1 (@art_command_stops_when_chat_action_fails plain_repr ann_update
                  telegram_down [] (mkExn TelegramError "Timed out") eq_refl)).
Defined.

Lemma art_command_sends_photo_with_caption_witness :
  @get_met_art_item plain_repr ann_update (museum starry_night None) []
  = (Returns tt,
     (museum_visit
      ++ [EReplyPhoto (JStr "http://img/1.jpg")
            "<b>Title</b>: Starry &lt;Night&gt;" (Some HTML)])%list).
Proof.
  exact (@art_command_sends_photo_with_caption plain_repr ann_update
           (museum starry_night None) [] museum_visit starry_night
           (JStr "http://img/1.jpg") eq_refl eq_refl eq_refl eq_refl eq_refl).
Defined.


Lemma art_command_reports_empty_record_as_failure_witness :
  @get_met_art_item plain_repr ann_update (museum [] None) []
  = (Returns tt,
     (museum_visit
      ++ [EReplyText "🚫 Couldn't fetch artwork. Please try again later." None])%list).
Proof.
  exact (@art_command_reports_empty_record_as_failure plain_repr ann_update
           (museum [] None) [] museum_visit (JObj []) eq_refl eq_refl eq_refl).
Defined.

Lemma art_command_lets_cancellation_through_witness :
  @get_met_art_item plain_repr ann_update (museum starry_night (Some cancelled)) []
  = (Raises cancelled,
     (museum_visit
      ++ [EReplyPhoto (JStr "http://img/1.jpg")
            "<b>Title</b>: Starry &lt;Night&gt;" (Some HTML)])%list).
Proof.
  exact (@art_command_lets_cancellation_through plain_repr ann_update
           (museum starry_night (Some cancelled)) [] museum_visit starry_night
           (JStr "http://img/1.jpg") cancelled
           eq_refl eq_refl eq_refl eq_refl eq_refl eq_refl).
Defined.

Lemma art_command_raises_on_unusable_images_witness :
  @get_met_art_item plain_repr ann_update (museum odd_images None) []
  = (Raises (mkExn KeyError "0"), museum_visit).
Proof.
  exact (@art_command_raises_on_unusable_images plain_repr ann_update
           (museum odd_images None) [] museum_visit odd_images
           (mkExn KeyError "0") eq_refl eq_refl eq_refl).
Defined.

Lemma art_command_raises_on_non_object_record_witness :
  exists e,
    exn_cls e = AttributeError
    /\ @get_met_art_item plain_repr ann_update
         (gallery (ok (JList [JStr "Sketch"])) None) []
       = (Raises e, museum_visit).
Proof.
  assert (Hnot : forall d, JList [JStr "Sketch"] <> JObj d) by discriminate.
  exact (@art_command_raises_on_non_object_record plain_repr ann_update
           (gallery (ok (JList [JStr "Sketch"])) None) [] museum_visit
           (JList [JStr "Sketch"]) eq_refl eq_refl eq_refl Hnot).
Defined.

Lemma art_command_issues_at_most_two_requests_witness :
  requests (art_prelude ann_update) = requests []
  \/ requests (art_prelude ann_update) = (requests [] ++ [search_request])%list
  \/ exists random_id,
       requests (art_prelude ann_update)
       = (requests [] ++ [search_request; @detail_request plain_repr random_id])%list.
Proof.
  exact (@art_command_issues_at_most_two_requests plain_repr ann_update
           telegram_down [] (Raises (mkExn TelegramError "Timed out"))
           (art_prelude ann_update) eq_refl).
Defined.

Lemma art_command_answers_at_most_once_witness :
  exists new,
    (museum_visit
     ++ [EReplyPhoto (JStr "http://img/1.jpg")
           "<b>Title</b>: Starry &lt;Night&gt;" (Some HTML);
         ELog ERROR "Failed to send image: Wrong file identifier/HTTP URL specified";
         EReplyText ("🖼️ Image available at: http://img/1.jpg" ++ nl ++ nl
                     ++ "<b>Title</b>: Starry &lt;Night&gt;") (Some HTML)])%list
    = ([] ++ new)%list
    /\ length (filter is_photo new) <= 1
    /\ length (filter is_text new) <= 1.
Proof.
  exact (@art_command_answers_at_most_once plain_repr ann_update
           (museum starry_night (Some rejected_photo)) [] (Returns tt) _ eq_refl).
Defined.

Lemma echo_stops_when_chat_action_fails_witness :
  echo ann_update telegram_down []
  = (Raises (mkExn TelegramError "Timed out"), [ESendChatAction 7 "typing"]).
Proof.
  exact (echo_stops_when_chat_action_fails ann_update telegram_down []
           (mkExn TelegramError "Timed out") eq_refl).
Defined.

(** ** Runs without a TLS context, and characters *)

(** Without the certificate bundle the first fetch raises before any
    request: the session is closed, the art command raises, and nothing
    is sent to the chat. *)
Example art_command_without_certificates :
  @get_met_art_item plain_repr ann_update (constant_world no_certificates) []
  = (Raises (mkExn OSError "[Errno 2] No such file or directory"),
     (art_prelude ann_update ++ [ESessionOpen; ESessionClose])%list).
Proof. reflexivity. Qed.

(** The first character of a text, not its first byte. *)
Example first_character_of_additional_images :
  get_best_image_url [("additionalImages", JStr "écu")] = Returns (JStr "é").
Proof. reflexivity. Qed.
